(** * BrightData MCP x Google ADK backend: connection manager and chat endpoint

    A shallow embedding of [backend/utils/mcp_manager.py] and of the request
    path of [backend/app/main.py], with the properties of the design
    document stated over it.

    Python values are modelled as the code uses them: a [str] is a sequence
    of Unicode code points, [os.environ] and the [dict] built for the MCP
    server are finite maps, attribute writes on [self] are updates of a
    record, and the calls that build or signal something outside (the
    constructors of parameters, toolset, agent, runner and session service, a
    process signal, a session allocation) may raise.  [print] is left out.
    Code guarded by [asyncio.Lock] runs as one atomic transition; the deadline
    of a request is not a clock but one of the ways its event stream ends. *)

From Stdlib Require Import NArith ZArith List Bool Ascii String.
From stdpp Require Import base option list gmap pretty.

Local Open Scope N_scope.
Local Open Scope list_scope.

(** ** Python strings *)

Module PyStr.

(** A Python [str]: the sequence of its code points. *)
Definition pystr := list N.

(** An ASCII literal of the source. *)
Definition lit (s : string) : pystr :=
  List.map N_of_ascii (list_ascii_of_string s).

(** [str.isspace] on one character (CPython's [_PyUnicode_IsWhitespace]). *)
Definition isspace (c : N) : bool :=
  ((9 <=? c) && (c <=? 13)) || ((28 <=? c) && (c <=? 32))
  || (c =? 133) || (c =? 160) || (c =? 5760)
  || ((8192 <=? c) && (c <=? 8202))
  || (c =? 8232) || (c =? 8233) || (c =? 8239) || (c =? 8287) || (c =? 12288).

Fixpoint lstrip (s : pystr) : pystr :=
  match s with
  | [] => []
  | c :: t => if isspace c then lstrip t else s
  end.

Definition rstrip (s : pystr) : pystr := rev (lstrip (rev s)).

(** [s.strip()] *)
Definition strip (s : pystr) : pystr := rstrip (lstrip s).

Fixpoint startswith (s p : pystr) : bool :=
  match p, s with
  | [], _ => true
  | _ :: _, [] => false
  | a :: p', b :: s' => (a =? b) && startswith s' p'
  end.

(** [p in s] for two strings *)
Fixpoint contains (p s : pystr) : bool :=
  startswith s p ||
  match s with
  | [] => false
  | _ :: t => contains p t
  end.

(** Truth value of a string: non-empty. *)
Definition nonempty (s : pystr) : bool :=
  match s with [] => false | _ :: _ => true end.

(** [str(n)] for a non-negative integer. *)
Definition str_of_N (n : N) : pystr := lit (pretty n).

End PyStr.
Import PyStr.

(** ** Exceptions and the state-and-exception monad *)

(** The subclasses of [Exception] that the code raises or catches.  [str(e)]
    is the text the handlers embed in their messages. *)
Inductive Exn :=
| ValueError (msg : pystr)
| RuntimeError (msg : pystr)
| TypeError (msg : pystr)
| TimeoutError
| HTTPException (status_code : N) (detail : pystr)
| OtherException (msg : pystr).

(** [str(e)]; Starlette renders an [HTTPException] as [status: detail], and
    [asyncio.TimeoutError()] carries no argument. *)
Definition exn_str (e : Exn) : pystr :=
  match e with
  | ValueError m | RuntimeError m | TypeError m | OtherException m => m
  | TimeoutError => []
  | HTTPException c d => str_of_N c ++ lit ": " ++ d
  end.

Inductive outcome (A : Type) :=
| Ret (a : A)
| Raise (e : Exn).
Arguments Ret {A} a.
Arguments Raise {A} e.

(** A computation over a store [S]: attribute writes made before an exception
    is raised stay in the store. *)
Definition M (S A : Type) : Type := S -> outcome A * S.

Definition ret {S A} (a : A) : M S A := fun s => (Ret a, s).
Definition raise {S A} (e : Exn) : M S A := fun s => (Raise e, s).
Definition bind {S A B} (m : M S A) (k : A -> M S B) : M S B :=
  fun s => match m s with
           | (Ret a, s') => k a s'
           | (Raise e, s') => (Raise e, s')
           end.
Definition get {S} : M S S := fun s => (Ret s, s).
Definition modify {S} (f : S -> S) : M S unit := fun s => (Ret tt, f s).
(** [try: m except Exception as e: h e] *)
Definition try_except {S A} (m : M S A) (h : Exn -> M S A) : M S A :=
  fun s => match m s with
           | (Ret a, s') => (Ret a, s')
           | (Raise e, s') => h e s'
           end.

Notation "x <- m ;; k" := (bind m (fun x => k))
  (at level 63, m at next level, right associativity).
Notation "m ;;; k" := (bind m (fun _ => k))
  (at level 63, right associativity).


(** ** The world outside the program *)

(** The places where the code calls into a library. *)
Inductive Call :=
| Call_StdioServerParameters
| Call_MCPToolset
| Call_terminate
| Call_sleep
| Call_poll
| Call_kill
| Call_Agent
| Call_Agent_fallback
| Call_InMemorySessionService
| Call_Runner
| Call_create_session.

(** What one invocation finds outside: the process environment, which library
    calls raise, and what [Popen.poll] answers. *)
Record World := {
  environ : gmap pystr pystr;
  raises : Call -> option Exn;
  poll_result : option Z
}.

(** [os.getenv(name)] *)
Definition getenv (w : World) (name : pystr) : option pystr :=
  environ w !! name.

(** [os.getenv(name, default)] and [os.environ.get(name, default)] *)
Definition getenv_default (w : World) (name default : pystr) : pystr :=
  match environ w !! name with
  | Some v => v
  | None => default
  end.

(** ** [MCPConnectionManager] *)

Record StdioServerParameters := {
  command : pystr;
  args : list pystr;
  env : gmap pystr pystr
}.

(** An [MCPToolset] object: its identity and the value of
    [connection_params] it was built from.  Built over stdio parameters, it is the handle of the subprocess
    [npx -y @brightdata/mcp]. *)
Record MCPToolset := {
  toolset_id : nat;
  connection_params : option StdioServerParameters
}.

Record Popen := { pid : nat }.

(** The attributes of the manager ([__init__] gives [new_manager]); the lock
    is the atomicity of [connect] and [disconnect]. *)
Record MCPConnectionManager := {
  _toolset : option MCPToolset;
  _process : option Popen;
  _connection_params : option StdioServerParameters;
  _is_connected : bool;
  _connection_attempted : bool
}.

Definition new_manager : MCPConnectionManager :=
  {| _toolset := None; _process := None; _connection_params := None;
     _is_connected := false; _connection_attempted := false |}.

(** What a call does outside the manager's attributes. *)
Inductive Effect :=
| Built_params
| Built_toolset (id : nat)
| Terminated (p : Popen)
| Slept
| Polled (p : Popen)
| Killed (p : Popen).

(** The manager together with the record of what it did so far and the next
    free object identity. *)
Record Sys := {
  self : MCPConnectionManager;
  effects : list Effect;
  next_id : nat
}.

Definition new_sys : Sys :=
  {| self := new_manager; effects := []; next_id := 0 |}.

Definition set_self (f : MCPConnectionManager -> MCPConnectionManager)
  (s : Sys) : Sys :=
  {| self := f (self s); effects := effects s; next_id := next_id s |}.

Definition set_toolset (v : option MCPToolset) (m : MCPConnectionManager) :=
  {| _toolset := v; _process := _process m;
     _connection_params := _connection_params m;
     _is_connected := _is_connected m;
     _connection_attempted := _connection_attempted m |}.
Definition set_process (v : option Popen) (m : MCPConnectionManager) :=
  {| _toolset := _toolset m; _process := v;
     _connection_params := _connection_params m;
     _is_connected := _is_connected m;
     _connection_attempted := _connection_attempted m |}.
Definition set_connection_params (v : option StdioServerParameters)
  (m : MCPConnectionManager) :=
  {| _toolset := _toolset m; _process := _process m;
     _connection_params := v;
     _is_connected := _is_connected m;
     _connection_attempted := _connection_attempted m |}.
Definition set_is_connected (v : bool) (m : MCPConnectionManager) :=
  {| _toolset := _toolset m; _process := _process m;
     _connection_params := _connection_params m;
     _is_connected := v;
     _connection_attempted := _connection_attempted m |}.
Definition set_connection_attempted (v : bool) (m : MCPConnectionManager) :=
  {| _toolset := _toolset m; _process := _process m;
     _connection_params := _connection_params m;
     _is_connected := _is_connected m;
     _connection_attempted := v |}.

(** Truth value of an attribute holding an object or [None]. *)
Definition truthy {A} (o : option A) : bool :=
  match o with Some _ => true | None => false end.

(** Truth value of [os.getenv(..)]: set and not empty. *)
Definition truthy_str (o : option pystr) : bool :=
  match o with Some s => nonempty s | None => false end.

Section Manager.

Context (w : World).

Definition assign (f : MCPConnectionManager -> MCPConnectionManager)
  : M Sys unit := modify (set_self f).

Definition emit (e : Effect) : M Sys unit :=
  modify (fun s => {| self := self s; effects := effects s ++ [e];
                      next_id := next_id s |}).

(** A library call at site [c]: it raises when the world says so. *)
Definition call {S} (c : Call) : M S unit :=
  match raises w c with
  | Some e => raise e
  | None => ret tt
  end.

(** [_create_mcp_environment]: the dictionary literal, then the
    comprehension that drops the [None] values. *)
Definition base_env : list (pystr * option pystr) :=
  [ (lit "API_TOKEN", getenv w (lit "BRIGHTDATA_API_TOKEN"));
    (lit "BRIGHTDATA_API_TOKEN", getenv w (lit "BRIGHTDATA_API_TOKEN"));
    (lit "BROWSER_AUTH", getenv w (lit "BROWSER_AUTH"));
    (lit "WEB_UNLOCKER_ZONE",
       Some (getenv_default w (lit "WEB_UNLOCKER_ZONE") (lit "web_unlocker1")));
    (lit "NODE_ENV", Some (getenv_default w (lit "NODE_ENV") (lit "production")));
    (lit "PATH", Some (getenv_default w (lit "PATH") (lit "")));
    (lit "NPM_CONFIG_REGISTRY", Some (lit "https://registry.npmjs.org/"));
    (lit "NODE_OPTIONS", Some (lit "--max-old-space-size=2048")) ].

Definition _create_mcp_environment : gmap pystr pystr :=
  list_to_map
    (omap (fun kv => match snd kv with
                     | Some v => Some (fst kv, v)
                     | None => None
                     end) base_env).

(** [_test_connection]: the inner [try] swallows its own [RuntimeError]. *)
Definition _test_connection : M Sys unit :=
  try_except
    (s <- get ;;
     if negb (truthy (_toolset (self s)))
     then raise (RuntimeError (lit "Toolset not created"))
     else ret tt)
    (fun _ => ret tt).

(** [_cleanup] *)
Definition _cleanup : M Sys unit :=
  try_except
    (s <- get ;;
     (match _process (self s) with
      | Some p =>
          try_except
            (call Call_terminate ;;; emit (Terminated p) ;;;
             call Call_sleep ;;; emit Slept ;;;
             call Call_poll ;;; emit (Polled p) ;;;
             match poll_result w with
             | None => call Call_kill ;;; emit (Killed p)
             | Some _ => ret tt
             end)
            (fun _ => ret tt)
      | None => ret tt
      end) ;;;
     assign (set_toolset None) ;;;
     assign (set_process None) ;;;
     assign (set_connection_params None) ;;;
     assign (set_is_connected false) ;;;
     assign (set_connection_attempted false))
    (fun _ => ret tt).

(** [disconnect] *)
Definition disconnect : M Sys unit := _cleanup.

(** The two substrings that mark the list-roots error. *)
Definition list_roots_error (msg : pystr) : bool :=
  contains (lit "List roots not supported") msg
  || contains (lit "MCP error -32600") msg.

(** The body of the [try] in [connect]. *)
Definition connect_try : M Sys (option MCPToolset) :=
  let api_token := getenv w (lit "BRIGHTDATA_API_TOKEN") in
  let browser_auth := getenv w (lit "BROWSER_AUTH") in
  (if negb (truthy_str api_token)
   then raise (ValueError (lit "BRIGHTDATA_API_TOKEN not found in environment"))
   else ret tt) ;;;
  (if negb (truthy_str browser_auth)
   then raise (ValueError (lit "BROWSER_AUTH not found in environment"))
   else ret tt) ;;;
  let mcp_env := _create_mcp_environment in
  s <- get ;;
  (if negb (truthy (_connection_params (self s)))
   then
     call Call_StdioServerParameters ;;;
     emit Built_params ;;;
     assign (set_connection_params
               (Some {| command := lit "npx";
                        args := [lit "-y"; lit "@brightdata/mcp"];
                        env := mcp_env |}))
   else ret tt) ;;;
  s <- get ;;
  (if negb (truthy (_toolset (self s)))
   then
     call Call_MCPToolset ;;;
     emit (Built_toolset (next_id s)) ;;;
     modify (fun s => {| self := self s; effects := effects s;
                         next_id := S (next_id s) |}) ;;;
     assign (set_toolset
               (Some {| toolset_id := next_id s;
                        connection_params := _connection_params (self s) |}))
   else ret tt) ;;;
  _test_connection ;;;
  assign (set_is_connected true) ;;;
  s <- get ;;
  ret (_toolset (self s)).

(** The [except Exception as e] clause of [connect]. *)
Definition connect_except (e : Exn) : M Sys (option MCPToolset) :=
  let proceed : M Sys (option MCPToolset) :=
    assign (set_is_connected true) ;;;
    s <- get ;; ret (_toolset (self s)) in
  let after_first_if : M Sys (option MCPToolset) :=
    s <- get ;;
    if truthy (_toolset (self s)) && list_roots_error (exn_str e)
    then proceed
    else _cleanup ;;; ret None in
  s <- get ;;
  if list_roots_error (exn_str e)
  then if truthy (_toolset (self s)) then proceed else after_first_if
  else after_first_if.

(** [connect] *)
Definition connect : M Sys (option MCPToolset) :=
  s <- get ;;
  if _is_connected (self s) && truthy (_toolset (self s))
  then ret (_toolset (self s))
  else
    if _connection_attempted (self s) && negb (_is_connected (self s))
    then ret None
    else
      assign (set_connection_attempted true) ;;;
      try_except connect_try connect_except.

End Manager.

(** The property [is_connected]. *)
Definition is_connected (m : MCPConnectionManager) : bool :=
  _is_connected m && truthy (_toolset m).

(** The property [toolset]. *)
Definition toolset (m : MCPConnectionManager) : option MCPToolset :=
  if _is_connected m then _toolset m else None.

(** Successive [connect] calls with no [disconnect] in between. *)
Fixpoint connect_many (ws : list World) (s : Sys)
  : list (outcome (option MCPToolset)) * Sys :=
  match ws with
  | [] => ([], s)
  | w :: ws' =>
      let (r, s') := connect w s in
      let (rs, s'') := connect_many ws' s' in
      (r :: rs, s'')
  end.

(** The public operations, each run under the lock. *)
Inductive Op :=
| Connect (w : World)
| Disconnect (w : World).

Definition run_op (s : Sys) (o : Op) : Sys :=
  match o with
  | Connect w => snd (connect w s)
  | Disconnect w => snd (disconnect w s)
  end.

(** The states the singleton can be in: [new_sys] after any sequence of
    operations. *)
Definition run_ops (ops : list Op) : Sys := fold_left run_op ops new_sys.

(** The two guards at the head of [connect]. *)
Definition reuse_guard (m : MCPConnectionManager) : bool :=
  _is_connected m && truthy (_toolset m).
Definition latch_guard (m : MCPConnectionManager) : bool :=
  _connection_attempted m && negb (_is_connected m).

(** Concrete worlds and states used to run the model. *)
Definition no_raise : Call -> option Exn := fun _ => None.

Definition environ_with_secrets : gmap pystr pystr :=
  <[lit "BRIGHTDATA_API_TOKEN" := lit "token"]>
    (<[lit "BROWSER_AUTH" := lit "auth"]> ∅).

(** Both secrets set, every library call succeeds. *)
Definition world_ok : World :=
  {| environ := environ_with_secrets; raises := no_raise;
     poll_result := None |}.

(** Nothing set in the environment. *)
Definition world_empty : World :=
  {| environ := ∅; raises := no_raise; poll_result := None |}.


Definition params0 : StdioServerParameters :=
  {| command := lit "npx"; args := [lit "-y"; lit "@brightdata/mcp"];
     env := ∅ |}.
Definition toolset0 : MCPToolset :=
  {| toolset_id := 0; connection_params := Some params0 |}.

(** A handle is cached, the manager is not marked connected. *)
Definition sys_cached : Sys :=
  {| self := set_toolset (Some toolset0) new_manager;
     effects := [Built_toolset 0]; next_id := 1 |}.

(** Connected to [toolset0]. *)
Definition sys_connected : Sys :=
  {| self := {| _toolset := Some toolset0; _process := None;
                _connection_params := Some params0;
                _is_connected := true; _connection_attempted := true |};
     effects := [Built_params; Built_toolset 0]; next_id := 1 |}.

(** The shape of the attributes in every state the singleton can reach:
    fresh, or connected with the latch set and a handle cached. *)
Definition consistent (m : MCPConnectionManager) : Prop :=
  m = new_manager \/
  (_is_connected m = true /\ _connection_attempted m = true /\
   _process m = None /\ exists h, _toolset m = Some h).

(** The variables [_create_mcp_environment] reads, and agreement of two
    process environments on them. *)
Definition variables_read : list pystr :=
  [lit "BRIGHTDATA_API_TOKEN"; lit "BROWSER_AUTH"; lit "WEB_UNLOCKER_ZONE";
   lit "NODE_ENV"; lit "PATH"].

Definition agree_on_variables_read (w w' : World) : Prop :=
  Forall (fun name => getenv w name = getenv w' name) variables_read.

(** Each entry of the result that comes from the environment, with the
    variable it is read from. *)
Definition entry_source : list (pystr * pystr) :=
  [ (lit "API_TOKEN", lit "BRIGHTDATA_API_TOKEN");
    (lit "BRIGHTDATA_API_TOKEN", lit "BRIGHTDATA_API_TOKEN");
    (lit "BROWSER_AUTH", lit "BROWSER_AUTH");
    (lit "WEB_UNLOCKER_ZONE", lit "WEB_UNLOCKER_ZONE");
    (lit "NODE_ENV", lit "NODE_ENV");
    (lit "PATH", lit "PATH") ].

(** The secrets are set and so is an unrelated variable. *)
Definition world_ok_home : World :=
  {| environ := <[lit "HOME" := lit "/root"]> environ_with_secrets;
     raises := no_raise; poll_result := None |}.

(** ** Objects as the request path probes them *)

(** The chat endpoint inspects the events of the runner with [hasattr],
    [isinstance(_, str)], truth tests and [for].  A value is [None], a string,
    a list, or an object of some class with named attributes. *)
#[warnings="-register-all"]
Inductive Val :=
| VNone
| VStr (s : pystr)
| VList (items : list Val)
| VObj (cls : pystr) (attrs : list (pystr * Val)).

Fixpoint lookup_attr (attrs : list (pystr * Val)) (name : pystr)
  : option Val :=
  match attrs with
  | [] => None
  | (k, v) :: rest => if decide (k = name) then Some v else lookup_attr rest name
  end.

(** [hasattr(v, name)], for the attribute names the code asks for; strings,
    lists and [None] have none of them. *)
Definition hasattr (v : Val) (name : pystr) : bool :=
  match v with
  | VObj _ attrs => truthy (lookup_attr attrs name)
  | _ => false
  end.

(** [v.name], read only under [hasattr(v, name)]. *)
Definition attr (v : Val) (name : pystr) : Val :=
  match v with
  | VObj _ attrs =>
      match lookup_attr attrs name with Some x => x | None => VNone end
  | _ => VNone
  end.

(** Truth value of a value. *)
Definition py_truthy (v : Val) : bool :=
  match v with
  | VNone => false
  | VStr s => nonempty s
  | VList l => match l with [] => false | _ :: _ => true end
  | VObj _ _ => true
  end.

Definition isinstance_str (v : Val) : bool :=
  match v with VStr _ => true | _ => false end.

Definition type_name (v : Val) : pystr :=
  match v with
  | VNone => lit "NoneType"
  | VStr _ => lit "str"
  | VList _ => lit "list"
  | VObj cls _ => cls
  end.

(** ** The chat endpoint *)

Module ChatMessage.
(** [session_id: Optional[str] = "default"] *)
Record t := { message : pystr; session_id : option pystr }.

(** Construction from a request body: the field may be left out, be [null]
    or be a string. *)
Definition parse (message : pystr) (session_id : option (option pystr)) : t :=
  {| message := message;
     session_id := match session_id with
                   | None => Some (lit "default")
                   | Some v => v
                   end |}.
End ChatMessage.

Module ChatResponse.
Record t := { response : pystr; session_id : pystr; status : pystr }.
End ChatResponse.

Module Session.
Record t := {
  id : pystr;
  app_name : pystr;
  user_id : pystr;
  state : gmap pystr pystr
}.
End Session.

Record Agent := { name : pystr; tools : list MCPToolset }.

Inductive InMemorySessionService := Session_service_object.

Record Runner := { runner_app_name : pystr; agent : Agent }.

(** The module globals of [main.py], the singleton manager of
    [mcp_manager.py], the sessions held by the one session service, and the
    sessions on which [run_async] has been started. *)
Record App := {
  _agent_instance : option Agent;
  _session_service : option InMemorySessionService;
  _runner_instance : option Runner;
  _mcp_manager : Sys;
  sessions : list Session.t;
  runs : list pystr
}.

Definition new_app : App :=
  {| _agent_instance := None; _session_service := None;
     _runner_instance := None; _mcp_manager := new_sys;
     sessions := []; runs := [] |}.

(** How the consumption of the event stream under [asyncio.wait_for] ends. *)
Inductive Ending :=
| Stream_ends
| Deadline_expires
| Runner_raises (e : Exn).

(** What one request finds outside: the world of the manager, [str()] of the
    objects that are not strings, the identifier the session service
    allocates, the events the runner delivers before the stream ends, and the
    text of pydantic's validation error. *)
Record Incoming := {
  world : World;
  str_of_object : Val -> pystr;
  new_session_id : pystr;
  events : list Val;
  ending : Ending;
  validation_error : pystr
}.

Definition timeout_seconds : N := 90.

Definition timeout_note : pystr :=
  [10; 10; 9201; 65039] ++ lit " **Note**: Request timed out after "
  ++ str_of_N timeout_seconds
  ++ lit " seconds. Showing partial results gathered so far.".

Definition timeout_message : pystr :=
  [9201; 65039] ++ lit " **Request timed out** after "
  ++ str_of_N timeout_seconds
  ++ lit " seconds. The comparison is taking longer than expected. Please try a more specific query or try again later.".

Definition error_prefix : pystr :=
  lit "I encountered an error while processing your request: ".

Definition fallback_message : pystr :=
  lit "I processed your request, but I'm having trouble generating a response. Please try again or rephrase your question.".

Section Chat.

Context (rq : Incoming).

(** [str(v)] *)
Definition py_str (v : Val) : pystr :=
  match v with
  | VStr s => s
  | _ => str_of_object rq v
  end.

(** The values a [for] loop over [v] visits. *)
Definition iterate {S} (v : Val) : M S (list Val) :=
  match v with
  | VList l => ret l
  | VStr s => ret (List.map (fun c => VStr [c]) s)
  | _ => raise (TypeError (lit "'" ++ type_name v
                           ++ lit "' object is not iterable"))
  end.

(** [response_text += s + "\n"] *)
Definition append_line (s : pystr) : M pystr unit :=
  modify (fun response_text => response_text ++ s ++ [10]).

(** [for part in parts: if hasattr(part, 'text') and part.text: ...] *)
Definition for_parts (parts : Val) : M pystr unit :=
  items <- iterate parts ;;
  fold_right
    (fun part rest =>
       (if hasattr part (lit "text") && py_truthy (attr part (lit "text"))
        then append_line (py_str (attr part (lit "text")))
        else ret tt) ;;; rest)
    (ret tt) items.

(** The body of the [async for] loop. *)
Definition on_event (event : Val) : M pystr unit :=
  if hasattr event (lit "content") then
    let content := attr event (lit "content") in
    if hasattr content (lit "parts") then
      for_parts (attr content (lit "parts"))
    else if hasattr content (lit "text")
            && py_truthy (attr content (lit "text")) then
      append_line (py_str (attr content (lit "text")))
    else if isinstance_str content then
      append_line (py_str content)
    else ret tt
  else if hasattr event (lit "message")
          && py_truthy (attr event (lit "message")) then
    let message := attr event (lit "message") in
    if hasattr message (lit "content") then
      let content := attr message (lit "content") in
      if hasattr content (lit "parts") then
        for_parts (attr content (lit "parts"))
      else if hasattr content (lit "text")
              && py_truthy (attr content (lit "text")) then
        append_line (py_str (attr content (lit "text")))
      else ret tt
    else if isinstance_str message then
      append_line (py_str message)
    else ret tt
  else if hasattr event (lit "text") && py_truthy (attr event (lit "text")) then
    append_line (py_str (attr event (lit "text")))
  else ret tt.

Fixpoint consume (evs : list Val) : M pystr unit :=
  match evs with
  | [] => ret tt
  | event :: rest => on_event event ;;; consume rest
  end.

(** [await asyncio.wait_for(run_agent_with_events(), timeout=90)]: the events
    that arrive are handled in order; then the stream ends, the deadline
    expires, or the runner raises. *)
Definition wait_for_run : M pystr unit :=
  consume (events rq) ;;;
  match ending rq with
  | Stream_ends => ret tt
  | Deadline_expires => raise TimeoutError
  | Runner_raises e => raise e
  end.

(** [try: m except asyncio.TimeoutError: h] *)
Definition try_except_timeout {S A} (m : M S A) (h : M S A) : M S A :=
  fun s => match m s with
           | (Raise TimeoutError, s') => h s'
           | r => r
           end.

(** The inner [try] of [chat] with its [except asyncio.TimeoutError]. *)
Definition run_with_timeout : M pystr unit :=
  try_except_timeout wait_for_run
    (response_text <- get ;;
     if nonempty (strip response_text)
     then modify (fun response_text => response_text ++ timeout_note)
     else modify (fun _ => timeout_message)).

(** The [try ... except Exception as e] around it. *)
Definition run_guarded : M pystr unit :=
  try_except run_with_timeout
    (fun e => modify (fun _ => error_prefix ++ exn_str e)).

(** The text handed to [ChatResponse]: [response_text] starts empty, is
    filled by the run, stripped and replaced by the fallback when empty. *)
Definition final_text : pystr :=
  let response_text := snd (run_guarded []) in
  let response_text := strip response_text in
  if negb (nonempty response_text) then fallback_message else response_text.

Definition set_agent_instance (v : option Agent) (a : App) : App :=
  {| _agent_instance := v; _session_service := _session_service a;
     _runner_instance := _runner_instance a; _mcp_manager := _mcp_manager a;
     sessions := sessions a; runs := runs a |}.
Definition set_session_service (v : option InMemorySessionService) (a : App)
  : App :=
  {| _agent_instance := _agent_instance a; _session_service := v;
     _runner_instance := _runner_instance a; _mcp_manager := _mcp_manager a;
     sessions := sessions a; runs := runs a |}.
Definition set_runner_instance (v : option Runner) (a : App) : App :=
  {| _agent_instance := _agent_instance a;
     _session_service := _session_service a;
     _runner_instance := v; _mcp_manager := _mcp_manager a;
     sessions := sessions a; runs := runs a |}.
Definition set_mcp_manager (v : Sys) (a : App) : App :=
  {| _agent_instance := _agent_instance a;
     _session_service := _session_service a;
     _runner_instance := _runner_instance a; _mcp_manager := v;
     sessions := sessions a; runs := runs a |}.
Definition add_session (v : Session.t) (a : App) : App :=
  {| _agent_instance := _agent_instance a;
     _session_service := _session_service a;
     _runner_instance := _runner_instance a; _mcp_manager := _mcp_manager a;
     sessions := sessions a ++ [v]; runs := runs a |}.
Definition add_run (session_id : pystr) (a : App) : App :=
  {| _agent_instance := _agent_instance a;
     _session_service := _session_service a;
     _runner_instance := _runner_instance a; _mcp_manager := _mcp_manager a;
     sessions := sessions a; runs := runs a ++ [session_id] |}.

(** A method of the singleton manager, run on the application state. *)
Definition on_manager {A} (m : M Sys A) : M App A :=
  fun a => let (r, s') := m (_mcp_manager a) in (r, set_mcp_manager s' a).

(** [get_mcp_tools] *)
Definition get_mcp_tools : M App (list MCPToolset) :=
  try_except
    (toolset <- on_manager (connect (world rq)) ;;
     ret (match toolset with Some t => [t] | None => [] end))
    (fun _ => ret []).

(** [get_agent_async] *)
Definition get_agent_async : M App Agent :=
  a <- get ;;
  match _agent_instance a with
  | Some agent => ret agent
  | None =>
      try_except
        (tools <- get_mcp_tools ;;
         call (world rq) Call_Agent ;;;
         let agent := {| name := lit "brightdata_mcp_professional_agent";
                         tools := tools |} in
         modify (set_agent_instance (Some agent)) ;;;
         ret agent)
        (fun _ =>
           call (world rq) Call_Agent_fallback ;;;
           let agent := {| name := lit "basic_assistant"; tools := [] |} in
           modify (set_agent_instance (Some agent)) ;;;
           ret agent)
  end.

(** [get_shared_session_service] *)
Definition get_shared_session_service : M App InMemorySessionService :=
  a <- get ;;
  match _session_service a with
  | None =>
      call (world rq) Call_InMemorySessionService ;;;
      modify (set_session_service (Some Session_service_object)) ;;;
      ret Session_service_object
  | Some service => ret service
  end.

(** [get_shared_runner] *)
Definition get_shared_runner : M App Runner :=
  a <- get ;;
  match _runner_instance a with
  | None =>
      agent <- get_agent_async ;;
      session_service <- get_shared_session_service ;;
      call (world rq) Call_Runner ;;;
      let runner := {| runner_app_name := lit "adk_mcp_fastapi";
                       agent := agent |} in
      modify (set_runner_instance (Some runner)) ;;;
      ret runner
  | Some runner => ret runner
  end.

(** [session_service.create_session(state={}, app_name=.., user_id=..)]: the
    service allocates the identifier and stores the session. *)
Definition create_session (app_name user_id : pystr) : M App Session.t :=
  call (world rq) Call_create_session ;;;
  let session := {| Session.id := new_session_id rq;
                    Session.app_name := app_name;
                    Session.user_id := user_id;
                    Session.state := ∅ |} in
  modify (add_session session) ;;;
  ret session.

(** [{v}] in an f-string, for an [Optional[str]]. *)
Definition format_optional (v : option pystr) : pystr :=
  match v with Some s => s | None => lit "None" end.

(** [ChatResponse(response=.., session_id=.., status=..)]: the field
    [session_id: str] refuses [None]; pydantic's error is a [ValueError]. *)
Definition ChatResponse_init {S} (response : pystr) (session_id : option pystr)
  (status : pystr) : M S ChatResponse.t :=
  match session_id with
  | Some sid => ret {| ChatResponse.response := response;
                       ChatResponse.session_id := sid;
                       ChatResponse.status := status |}
  | None => raise (ValueError (validation_error rq))
  end.

(** The steps of [chat] between the check of the message and the run:
    shared services, then a session of its own for this request. *)
Definition open_session (message : ChatMessage.t) : M App Session.t :=
  session_service <- get_shared_session_service ;;
  runner <- get_shared_runner ;;
  create_session (lit "adk_mcp_fastapi")
    (lit "user_" ++ format_optional (ChatMessage.session_id message)).

(** [chat]: an exception that leaves it is the [HTTPException] the caller
    receives. *)
Definition chat (message : ChatMessage.t) : M App ChatResponse.t :=
  try_except
    ((if negb (nonempty (strip (ChatMessage.message message)))
      then raise (HTTPException 400 (lit "No message provided"))
      else ret tt) ;;;
     session <- open_session message ;;
     modify (add_run (Session.id session)) ;;;
     let response_text := final_text in
     ChatResponse_init response_text (ChatMessage.session_id message)
       (lit "success"))
    (fun e =>
       raise (HTTPException 500 (lit "Internal server error: " ++ exn_str e))).

End Chat.

(** Events in the shape the ADK runner produces, carrying one text part; a
    nested and a flat shape. *)
Definition text_event (s : pystr) : Val :=
  VObj (lit "Event")
    [(lit "content",
      VObj (lit "Content")
        [(lit "parts", VList [VObj (lit "Part") [(lit "text", VStr s)]])])].

Definition message_event (s : pystr) : Val :=
  VObj (lit "Event") [(lit "message", VStr s)].

Definition flat_event (s : pystr) : Val :=
  VObj (lit "Event") [(lit "text", VStr s)].

(** An event whose [content] is [None], as the runner sends between texts. *)
Definition silent_event : Val :=
  VObj (lit "Event") [(lit "content", VNone)].

(** Concrete requests used to run the model. *)
Definition incoming (evs : list Val) (e : Ending) : Incoming :=
  {| world := world_ok;
     str_of_object := fun _ => lit "<object>";
     new_session_id := lit "5f0c6a2e";
     events := evs;
     ending := e;
     validation_error := lit "1 validation error for ChatResponse" |}.

Definition hello_world_timeout : Incoming :=
  incoming [text_event (lit "Hello "); text_event (lit "World")]
    Deadline_expires.

(** Two application states hold the same sessions and the same record of
    runs. *)
Definition same_store (a a' : App) : Prop :=
  sessions a' = sessions a /\ runs a' = runs a.

(** The response of the chat endpoint to the stream ["Hello "], ["World"] cut
    by the deadline. *)
Definition hello_world_response : pystr :=
  lit "Hello " ++ [10] ++ lit "World" ++ [10] ++ timeout_note.

Definition default_session : Session.t :=
  {| Session.id := lit "5f0c6a2e";
     Session.app_name := lit "adk_mcp_fastapi";
     Session.user_id := lit "user_default";
     Session.state := ∅ |}.

Definition success_response (text sid : pystr) : ChatResponse.t :=
  {| ChatResponse.response := text;
     ChatResponse.session_id := sid;
     ChatResponse.status := lit "success" |}.


(** The stream ends and no event carried text. *)
Definition silent_stream : Incoming :=
  incoming [silent_event; silent_event] Stream_ends.

(** One text arrives well before the deadline. *)
Definition price_stream : Incoming :=
  incoming [text_event (lit "Price: $10")] Stream_ends.

Definition hi_default : ChatMessage.t :=
  {| ChatMessage.message := lit "hi";
     ChatMessage.session_id := Some (lit "default") |}.

(** The same stream on a later request: the service allocates another
    identifier. *)
Definition price_stream_again : Incoming :=
  {| world := world price_stream;
     str_of_object := str_of_object price_stream;
     new_session_id := lit "9b1d4c77";
     events := events price_stream;
     ending := ending price_stream;
     validation_error := validation_error price_stream |}.

(** ** The rest of [main.py]: start-up, shutdown, diagnostics, quick compare *)

(** Toolsets built so far, and signals sent to a process, in a record of
    effects. *)
Definition is_built_toolset (e : Effect) : bool :=
  match e with Built_toolset _ => true | _ => false end.

Definition is_process_signal (e : Effect) : bool :=
  match e with
  | Terminated _ | Slept | Polled _ | Killed _ => true
  | Built_params | Built_toolset _ => false
  end.

Definition toolsets_built (s : Sys) : nat :=
  length (List.filter is_built_toolset (effects s)).

(** The parameters [connect] builds in world [w]. *)
Definition stdio_params (w : World) : StdioServerParameters :=
  {| command := lit "npx"; args := [lit "-y"; lit "@brightdata/mcp"];
     env := _create_mcp_environment w |}.

(** [bool(os.getenv(name))] *)
Definition configured (w : World) (name : pystr) : bool :=
  truthy_str (getenv w name).

(** [Settings.is_configured], its three attributes being read from the
    process environment when the class is created. *)
Definition is_configured (w : World) : bool :=
  truthy_str (getenv w (lit "GEMINI_API_KEY"))
  && truthy_str (getenv w (lit "BRIGHTDATA_API_TOKEN"))
  && truthy_str (getenv w (lit "BROWSER_AUTH")).

(** The answer of [GET /health]. *)
Record Health := {
  health_status : pystr;
  adk_initialized : bool;
  mcp_connected : bool;
  mcp_status_text : pystr;
  health_tools_count : N;
  google_api_configured : bool;
  brightdata_api_configured : bool;
  browser_auth_configured : bool
}.

(** The answer of [GET /mcp/status]. *)
Record McpStatus := {
  mcp_initialized : bool;
  mcp_tools_available : bool;
  status_tools_count : N;
  agent_available : bool;
  known_issues : list (pystr * list (pystr * pystr))
}.

(** The answer of [GET /]. *)
Record RootInfo := {
  root_status : pystr;
  root_message : pystr;
  version : pystr;
  framework : pystr;
  root_tools_available : N;
  endpoints : list (pystr * pystr)
}.

(** The answer of [POST /quick-compare]: the dictionary of the normal return
    or the one of the [except] clause. *)
Inductive QuickResult :=
| Quick_response (response : pystr) (timeout_seconds : N) (status : pystr)
| Quick_error (error : pystr) (status : pystr).

Definition quick_timeout_seconds : N := 30.

Definition quick_note : pystr :=
  [10; 10; 9889] ++ lit " **Quick comparison completed** in "
  ++ str_of_N quick_timeout_seconds ++ lit " seconds.".

Definition quick_fallback : pystr :=
  lit "Quick comparison completed - check results above".

Section Endpoints.

Context (rq : Incoming).

(** [cleanup_mcp] *)
Definition cleanup_mcp : M App unit :=
  try_except (on_manager (disconnect (world rq))) (fun _ => ret tt).

(** [lifespan], before the [yield]. *)
Definition lifespan_startup : M App unit :=
  try_except (agent <- get_agent_async rq ;; ret tt) (fun _ => ret tt).

(** [lifespan], after the [yield]. *)
Definition lifespan_shutdown : M App unit :=
  try_except cleanup_mcp (fun _ => ret tt).

(** [tools_count] as [root], [health_check] and [mcp_status] compute it. *)
Definition tools_count (a : App) : N :=
  if is_connected (self (_mcp_manager a)) then 1 else 0.

(** [root] *)
Definition root (a : App) : RootInfo :=
  {| root_status := lit "online";
     root_message := lit "Google ADK FastAPI MCP Agent";
     version := lit "2.0.0";
     framework := lit "Google ADK";
     root_tools_available := tools_count a;
     endpoints := [(lit "chat", lit "/chat"); (lit "health", lit "/health");
                   (lit "test", lit "/test")] |}.

(** [health_check] *)
Definition health_check (a : App) : Health :=
  let mcp_connected := is_connected (self (_mcp_manager a)) in
  {| health_status := lit "healthy";
     adk_initialized := truthy (_agent_instance a);
     mcp_connected := mcp_connected;
     mcp_status_text :=
       if mcp_connected then lit "connected" else lit "disconnected";
     health_tools_count := if mcp_connected then 1 else 0;
     google_api_configured := configured (world rq) (lit "GEMINI_API_KEY");
     brightdata_api_configured :=
       configured (world rq) (lit "BRIGHTDATA_API_TOKEN");
     browser_auth_configured := configured (world rq) (lit "BROWSER_AUTH") |}.

(** [mcp_status] *)
Definition mcp_status (a : App) : McpStatus :=
  let mcp_connected := is_connected (self (_mcp_manager a)) in
  {| mcp_initialized := mcp_connected;
     mcp_tools_available := mcp_connected;
     status_tools_count := if mcp_connected then 1 else 0;
     agent_available := truthy (_agent_instance a);
     known_issues :=
       [(lit "list_roots_not_supported",
         [(lit "description",
           lit "BrightData MCP server doesn't implement list_roots method");
          (lit "impact", lit "Non-critical - core functionality still works");
          (lit "error_code", lit "MCP-32600")])] |}.

(** The message [quick_compare] sends to the agent. *)
Definition quick_message (platforms location : pystr) : ChatMessage.t :=
  {| ChatMessage.message :=
       lit "Quick comparison: " ++ platforms ++ lit " in " ++ location
       ++ lit ". Use search_engine only for speed, provide results within 30 seconds.";
     ChatMessage.session_id := Some (lit "quick") |}.

(** The body of the loop of [run_quick_agent]: only the parts of
    [event.content] are read. *)
Definition quick_on_event (event : Val) : M pystr unit :=
  if hasattr event (lit "content")
     && hasattr (attr event (lit "content")) (lit "parts")
  then for_parts rq (attr (attr event (lit "content")) (lit "parts"))
  else ret tt.

Fixpoint quick_consume (evs : list Val) : M pystr unit :=
  match evs with
  | [] => ret tt
  | event :: rest => quick_on_event event ;;; quick_consume rest
  end.

(** [await asyncio.wait_for(run_quick_agent(), timeout=30)] *)
Definition wait_for_quick : M pystr unit :=
  quick_consume (events rq) ;;;
  match ending rq with
  | Stream_ends => ret tt
  | Deadline_expires => raise TimeoutError
  | Runner_raises e => raise e
  end.

(** The [try] around it with its [except asyncio.TimeoutError]. *)
Definition quick_with_timeout : M pystr unit :=
  try_except_timeout wait_for_quick
    (modify (fun response_text => response_text ++ quick_note)).

(** A computation on [response_text], started from the empty string, inside
    a request. *)
Definition with_response_text (m : M pystr unit) : M App pystr :=
  fun a => match m [] with
           | (Ret _, response_text) => (Ret response_text, a)
           | (Raise e, _) => (Raise e, a)
           end.

(** [quick_compare] *)
Definition quick_compare (platforms location : pystr) : M App QuickResult :=
  try_except
    (let quick_message := quick_message platforms location in
     session_service <- get_shared_session_service rq ;;
     runner <- get_shared_runner rq ;;
     session <- create_session rq (lit "adk_mcp_fastapi") (lit "quick_user") ;;
     modify (add_run (Session.id session)) ;;;
     response_text <- with_response_text quick_with_timeout ;;
     ret (Quick_response
            (if nonempty (strip response_text) then strip response_text
             else quick_fallback)
            quick_timeout_seconds (lit "success")))
    (fun e => ret (Quick_error (exn_str e) (lit "error"))).

End Endpoints.

(** The requests a running application serves, each on the state the
    previous one left. *)
Inductive Request :=
| Startup (rq : Incoming)
| Chat (rq : Incoming) (m : ChatMessage.t)
| QuickCompare (rq : Incoming) (platforms location : pystr)
| Shutdown (rq : Incoming).

Definition serve (a : App) (r : Request) : App :=
  match r with
  | Startup rq => snd (lifespan_startup rq a)
  | Chat rq m => snd (chat rq m a)
  | QuickCompare rq p l => snd (quick_compare rq p l a)
  | Shutdown rq => snd (lifespan_shutdown rq a)
  end.

Definition serve_all (rs : list Request) : App := fold_left serve rs new_app.

(** A stream of flat events. *)
Definition flat_stream : Incoming :=
  incoming [flat_event (lit "Price: $10")] Stream_ends.

(** The primary [Agent] constructor fails, the fallback one does not. *)
Definition world_agent_fails : World :=
  {| environ := environ_with_secrets;
     raises := fun c =>
       match c with
       | Call_Agent => Some (ValueError (lit "tools"))
       | _ => None
       end;
     poll_result := None |}.

Definition incoming_agent_fails : Incoming :=
  {| world := world_agent_fails;
     str_of_object := fun _ => lit "<object>";
     new_session_id := lit "5f0c6a2e";
     events := [];
     ending := Stream_ends;
     validation_error := lit "1 validation error for ChatResponse" |}.

(** What holds of the manager in every state it can reach: it is fresh, or
    connected to a handle that was built from the cached parameters and is
    older than the next object; no process was ever signalled; and the object
    counter counts the toolsets built. *)
Definition well_formed (s : Sys) : Prop :=
  (self s = new_manager \/
   (_is_connected (self s) = true /\ _connection_attempted (self s) = true /\
    _process (self s) = None /\
    exists h p, _toolset (self s) = Some h /\
                _connection_params (self s) = Some p /\
                connection_params h = Some p /\
                command p = lit "npx" /\
                (toolset_id h < next_id s)%nat)) /\
  List.filter is_process_signal (effects s) = [] /\
  toolsets_built s = next_id s.

(** The state a successful attempt leaves when it starts from a fresh
    manager in world [w]. *)
Definition connected_sys (w : World) (s : Sys) : Sys :=
  {| self := {| _toolset := Some {| toolset_id := next_id s;
                                    connection_params := Some (stdio_params w) |};
                _process := None;
                _connection_params := Some (stdio_params w);
                _is_connected := true;
                _connection_attempted := true |};
     effects := effects s ++ [Built_params; Built_toolset (next_id s)];
     next_id := S (next_id s) |}.

(** The token is set to the empty string. *)
Definition world_empty_token : World :=
  {| environ := <[lit "BRIGHTDATA_API_TOKEN" := lit ""]> environ_with_secrets;
     raises := no_raise; poll_result := None |}.

(** Two application states hold the same agent and the same manager. *)
Definition same_agent_and_manager (a a' : App) : Prop :=
  _agent_instance a' = _agent_instance a /\ _mcp_manager a' = _mcp_manager a.

(** The steps [chat] and [quick_compare] share before the run: the shared
    services, then a new session for user [user_id]. *)
Definition open_for (rq : Incoming) (user_id : pystr) : M App Session.t :=
  session_service <- get_shared_session_service rq ;;
  runner <- get_shared_runner rq ;;
  create_session rq (lit "adk_mcp_fastapi") user_id.

Definition is_shutdown (r : Request) : bool :=
  match r with Shutdown _ => true | _ => false end.

(** The application after a start-up in which only the fallback agent could
    be built. *)
Definition app_basic_agent : App :=
  snd (lifespan_startup incoming_agent_fails new_app).

Definition basic_agent : Agent :=
  {| name := lit "basic_assistant"; tools := [] |}.

(** The event has the one shape [quick_compare] reads. *)
Definition has_content_parts (event : Val) : bool :=
  hasattr event (lit "content")
  && hasattr (attr event (lit "content")) (lit "parts").

Definition quick_session : Session.t :=
  {| Session.id := lit "5f0c6a2e";
     Session.app_name := lit "adk_mcp_fastapi";
     Session.user_id := lit "quick_user";
     Session.state := ∅ |}.

(** A computation on [response_text] that only appends: what it returns and
    what it appends do not depend on the text already there. *)
Definition appends_only {A} (m : M pystr A) : Prop :=
  forall buf, m buf = (fst (m []), buf ++ snd (m [])).

(** The lines the buffer gains from text pieces: each piece that is not
    empty, followed by a newline. *)
Definition lines_of (pieces : list pystr) : pystr :=
  concat (List.map (fun p => p ++ [10]) (List.filter nonempty pieces)).

(** An event whose [content] is [None] and that also has a [text]. *)
Definition shadowed_event : Val :=
  VObj (lit "Event") [(lit "content", VNone); (lit "text", VStr (lit "lost"))].

(** An event whose [content] has [parts] set to [None]. *)
Definition parts_none_event : Val :=
  VObj (lit "Event")
    [(lit "content", VObj (lit "Content") [(lit "parts", VNone)])].

Definition parts_none_stream : Incoming :=
  incoming [text_event (lit "partial"); parts_none_event;
            text_event (lit "more")] Stream_ends.

(** A request served while the token is set to the empty string. *)
Definition incoming_empty_token : Incoming :=
  {| world := world_empty_token;
     str_of_object := fun _ => lit "<object>";
     new_session_id := lit "5f0c6a2e";
     events := [];
     ending := Stream_ends;
     validation_error := lit "1 validation error for ChatResponse" |}.

(** The three keys of [Settings.is_configured] are set. *)
Definition world_configured : World :=
  {| environ := <[lit "GEMINI_API_KEY" := lit "key"]> environ_with_secrets;
     raises := no_raise; poll_result := None |}.

Definition incoming_configured : Incoming :=
  {| world := world_configured;
     str_of_object := fun _ => lit "<object>";
     new_session_id := lit "5f0c6a2e";
     events := [];
     ending := Stream_ends;
     validation_error := lit "1 validation error for ChatResponse" |}.

(** * Properties *)

(** ** Python strings *)

Example strip_example : strip (lit "  a b ") = lit "a b".
Proof. reflexivity. Qed.

Example str_of_N_example : str_of_N 90 = lit "90".
Proof. vm_compute. reflexivity. Qed.

Section StripFacts.

Implicit Types s a b : pystr.

Lemma lstrip_head s c t : lstrip s = c :: t -> isspace c = false.
Proof.
  induction s as [|d s IH]; cbn; [discriminate|].
  destruct (isspace d) eqn:E; [exact IH|]. intros [= -> _]. exact E.
Qed.

Lemma lstrip_fixed c t : isspace c = false -> lstrip (c :: t) = c :: t.
Proof. intros E. cbn. now rewrite E. Qed.

Lemma lstrip_blank s : lstrip s = [] <-> forallb isspace s = true.
Proof.
  induction s as [|c s IH]; cbn; [tauto|].
  destruct (isspace c); cbn; [exact IH|]. split; discriminate.
Qed.

Lemma lstrip_app_blank a b : lstrip a = [] -> lstrip (a ++ b) = lstrip b.
Proof.
  induction a as [|c a IH]; cbn; [reflexivity|].
  destruct (isspace c); [exact IH | discriminate].
Qed.

Lemma lstrip_app_nonblank a b :
  lstrip a <> [] -> lstrip (a ++ b) = lstrip a ++ b.
Proof.
  induction a as [|c a IH]; cbn; [congruence|].
  destruct (isspace c); [exact IH | reflexivity].
Qed.

Lemma forallb_rev (f : N -> bool) s : forallb f (rev s) = forallb f s.
Proof.
  induction s as [|c s IH]; [reflexivity|].
  cbn. rewrite forallb_app, IH. cbn. rewrite andb_true_r. apply andb_comm.
Qed.

Lemma rstrip_blank s : rstrip s = [] <-> forallb isspace s = true.
Proof.
  unfold rstrip. rewrite <- (rev_involutive s) at 2.
  rewrite forallb_rev, <- lstrip_blank.
  split; intros H.
  - apply (f_equal (@rev N)) in H. now rewrite rev_involutive in H.
  - now rewrite H.
Qed.

Lemma rstrip_app_blank a b : rstrip b = [] -> rstrip (a ++ b) = rstrip a.
Proof.
  intros H. unfold rstrip. rewrite rev_app_distr, lstrip_app_blank; [easy|].
  apply rstrip_blank in H. apply lstrip_blank. now rewrite forallb_rev.
Qed.

Lemma rstrip_app_nonblank a b :
  rstrip b <> [] -> rstrip (a ++ b) = a ++ rstrip b.
Proof.
  intros H. unfold rstrip in *.
  rewrite rev_app_distr, lstrip_app_nonblank.
  - now rewrite rev_app_distr, rev_involutive.
  - intros E. apply H. now rewrite E.
Qed.

(** A string strips to nothing exactly when it is made of whitespace. *)
Lemma strip_blank s : strip s = [] <-> forallb isspace s = true.
Proof.
  unfold strip. rewrite <- lstrip_blank. split; intros H; [|now rewrite H].
  destruct (lstrip s) as [|c t] eqn:E; [reflexivity|]. exfalso.
  pose proof (lstrip_head _ _ _ E) as Hc.
  change (c :: t) with ([c] ++ t) in H.
  destruct (rstrip t) as [|d u] eqn:Et.
  - rewrite rstrip_app_blank in H by exact Et.
    unfold rstrip in H. cbn in H. rewrite Hc in H. discriminate.
  - rewrite rstrip_app_nonblank in H by congruence. discriminate.
Qed.

Lemma nonempty_false s : nonempty s = false <-> s = [].
Proof. destruct s; cbn; split; congruence. Qed.

Lemma nonempty_true s : nonempty s = true <-> s <> [].
Proof. destruct s; cbn; split; congruence. Qed.

(** Stripping [a ++ b] when [a] has a visible character and [b] ends in
    one: only the leading whitespace of [a] goes. *)
Lemma strip_app_keep a b :
  strip a <> [] -> rstrip b = b -> b <> [] ->
  strip (a ++ b) = lstrip a ++ b.
Proof.
  intros Ha Hb Hn. unfold strip.
  assert (La : lstrip a <> []).
  { intros E. apply Ha. unfold strip. now rewrite E. }
  rewrite lstrip_app_nonblank by exact La.
  rewrite rstrip_app_nonblank by congruence. now rewrite Hb.
Qed.

End StripFacts.

(** ** The connection manager *)

Ltac unfold_m :=
  unfold bind, ret, raise, get, modify, try_except, assign, emit, call in *.

Lemma set_self_id (s : Sys) : set_self (fun m => m) s = s.
Proof. now destruct s. Qed.

(** [_cleanup] returns normally from every state, whatever the process
    signals do, and leaves the attributes as [__init__] set them. *)
Lemma cleanup_resets (w : World) (s : Sys) :
  exists fx,
    _cleanup w s
    = (Ret tt, {| self := new_manager; effects := effects s ++ fx;
                  next_id := next_id s |}).
Proof.
  destruct s as [[t p cp ic ca] fx n].
  unfold _cleanup. unfold_m. simpl.
  destruct p as [p|]; simpl.
  - destruct (raises w Call_terminate); simpl;
      [exists []; now rewrite app_nil_r|].
    destruct (raises w Call_sleep); simpl;
      [eexists; unfold new_manager; reflexivity|].
    destruct (raises w Call_poll); simpl;
      [eexists; rewrite <- !app_assoc; reflexivity|].
    destruct (poll_result w); simpl;
      [eexists; rewrite <- !app_assoc; reflexivity|].
    destruct (raises w Call_kill); simpl;
      eexists; rewrite <- !app_assoc; reflexivity.
  - exists []. now rewrite app_nil_r.
Qed.

(** Without a process object [_cleanup] touches nothing outside. *)
Lemma cleanup_no_process (w : World) (s : Sys) :
  _process (self s) = None ->
  _cleanup w s
  = (Ret tt, {| self := new_manager; effects := effects s;
                next_id := next_id s |}).
Proof.
  destruct s as [[t p cp ic ca] fx n]. simpl. intros ->.
  reflexivity.
Qed.

(** C5: [disconnect] never raises; from every state, and whatever the
    termination of the subprocess does, it leaves handle, connection
    parameters, connected flag and attempted-latch at their initial values;
    a second [disconnect] changes nothing more. *)
Theorem disconnect_idempotent (w w' : World) (s : Sys) :
  fst (disconnect w s) = Ret tt /\
  self (snd (disconnect w s)) = new_manager /\
  disconnect w' (snd (disconnect w s)) = (Ret tt, snd (disconnect w s)).
Proof.
  unfold disconnect.
  destruct (cleanup_resets w s) as [fx ->]. simpl.
  split; [reflexivity|]. split; [reflexivity|].
  now rewrite cleanup_no_process.
Qed.

(** The [except] clause: it proceeds with the cached handle when the message
    carries one of the two list-roots markers and a handle exists, and cleans
    up otherwise. *)
Lemma connect_except_spec (w : World) (e : Exn) (s : Sys) :
  connect_except w e s
  = if list_roots_error (exn_str e) && truthy (_toolset (self s))
    then (Ret (_toolset (self s)), set_self (set_is_connected true) s)
    else (Ret None, snd (_cleanup w s)).
Proof.
  unfold connect_except. cbv zeta. unfold_m. cbv beta.
  destruct (cleanup_resets w s) as [fx Hc].
  destruct (list_roots_error (exn_str e)) eqn:He,
    (truthy (_toolset (self s))) eqn:Ht;
    cbn [andb]; cbv beta; rewrite ?Ht; cbn [andb]; rewrite ?Hc; reflexivity.
Qed.

(** The [try] body either returns the handle it has just cached or found,
    with the connected flag set, or raises before any handle is assigned. *)
Lemma connect_try_cases (w : World) (s : Sys) :
  (exists h s', connect_try w s = (Ret (Some h), s')
     /\ _is_connected (self s') = true /\ _toolset (self s') = Some h
     /\ _process (self s') = _process (self s)
     /\ _connection_attempted (self s') = _connection_attempted (self s))
  \/
  (exists e s', connect_try w s = (Raise e, s')
     /\ _toolset (self s') = _toolset (self s)
     /\ _is_connected (self s') = _is_connected (self s)
     /\ _process (self s') = _process (self s)
     /\ _connection_attempted (self s') = _connection_attempted (self s)).
Proof.
  destruct s as [[t p cp ic ca] fx n].
  unfold connect_try, _test_connection. unfold_m.
  destruct (getenv w (lit "BRIGHTDATA_API_TOKEN")) as [[|c1 tk]|];
    cbn [truthy_str nonempty negb];
    try (right; do 2 eexists; split; [reflexivity|]; cbn; tauto).
  destruct (getenv w (lit "BROWSER_AUTH")) as [[|c2 au]|];
    cbn [truthy_str nonempty negb];
    try (right; do 2 eexists; split; [reflexivity|]; cbn; tauto).
  destruct cp as [cp|]; cbn [self _connection_params truthy negb];
    [| destruct (raises w Call_StdioServerParameters);
       [right; do 2 eexists; split; [reflexivity|]; cbn; tauto |] ].
  all: destruct t as [t|]; cbn;
    [| destruct (raises w Call_MCPToolset);
       [right; do 2 eexists; split; [reflexivity|]; cbn; tauto |] ].
  all: left; do 2 eexists; split; [reflexivity|]; cbn; tauto.
Qed.

(** [connect], one path at a time. *)
Lemma connect_unfold (w : World) (s : Sys) :
  connect w s
  = if reuse_guard (self s) then (Ret (_toolset (self s)), s)
    else if latch_guard (self s) then (Ret None, s)
    else try_except (connect_try w) (connect_except w)
           (set_self (set_connection_attempted true) s).
Proof.
  unfold connect, reuse_guard, latch_guard. unfold bind at 1. unfold get at 1.
  cbv beta iota.
  destruct (_is_connected (self s) && truthy (_toolset (self s)));
    [reflexivity|].
  destruct (_connection_attempted (self s) && negb (_is_connected (self s)));
    reflexivity.
Qed.

(** What [connect] can answer: a handle, and then the manager is connected
    to that handle; or [None], either on the latch path, which changes
    nothing, or after [_cleanup].  It never raises. *)
Lemma connect_result (w : World) (s : Sys) :
  (exists h s', connect w s = (Ret (Some h), s')
     /\ _is_connected (self s') = true /\ _toolset (self s') = Some h)
  \/ (connect w s = (Ret None, s) /\ latch_guard (self s) = true)
  \/ (exists s', connect w s = (Ret None, s') /\ self s' = new_manager
        /\ reuse_guard (self s) = false /\ latch_guard (self s) = false).
Proof.
  rewrite connect_unfold.
  destruct (reuse_guard (self s)) eqn:Hr.
  { left. apply andb_true_iff in Hr as [Hc Ht].
    destruct (_toolset (self s)) as [h|] eqn:Hh; [|discriminate].
    exists h, s. split_and!; auto. }
  destruct (latch_guard (self s)) eqn:Hl.
  { right; left. split; reflexivity. }
  unfold try_except.
  destruct (connect_try_cases w (set_self (set_connection_attempted true) s))
    as [(h & s' & -> & Hc & Ht & _) | (e & s' & -> & Ht & Hc & Hp & Ha)].
  { left. exists h, s'. split_and!; auto. }
  rewrite connect_except_spec.
  destruct (list_roots_error (exn_str e) && truthy (_toolset (self s'))) eqn:Hx.
  - left. apply andb_true_iff in Hx as [_ Hx].
    destruct (_toolset (self s')) as [h|] eqn:Hh; [|discriminate].
    exists h. eexists. split; [reflexivity|]. cbn. split_and!; auto.
  - right; right. destruct (cleanup_resets w s') as [fx ->].
    eexists. split; [reflexivity|]. split_and!; auto.
Qed.

(** The reuse path. *)
Lemma connect_reuse (w : World) (s : Sys) (h : MCPToolset) :
  _is_connected (self s) = true -> _toolset (self s) = Some h ->
  connect w s = (Ret (Some h), s).
Proof.
  intros Hc Ht. rewrite connect_unfold. unfold reuse_guard.
  now rewrite Hc, Ht.
Qed.

Lemma connect_many_reuse (ws : list World) (s : Sys) (h : MCPToolset) :
  _is_connected (self s) = true -> _toolset (self s) = Some h ->
  connect_many ws s = (List.map (fun _ => Ret (Some h)) ws, s).
Proof.
  intros Hc Ht. induction ws as [|w ws IH]; [reflexivity|].
  cbn [connect_many List.map]. now rewrite (connect_reuse w s h), IH.
Qed.

(** C6: when the manager is connected and holds a handle, [connect] returns
    that very handle and leaves every attribute, the record of constructions
    and the object counter as they were; so does every further [connect]. *)
Theorem connect_returns_existing_handle
  (w : World) (s : Sys) (h : MCPToolset) :
  _is_connected (self s) = true -> _toolset (self s) = Some h ->
  connect w s = (Ret (Some h), s) /\
  forall ws, connect_many ws s = (List.map (fun _ => Ret (Some h)) ws, s).
Proof.
  intros Hc Ht. split.
  - now apply connect_reuse.
  - intros ws. now apply connect_many_reuse.
Qed.

Lemma connect_returns_existing_handle_witness :
  connect world_empty sys_connected = (Ret (Some toolset0), sys_connected) /\
  forall ws, connect_many ws sys_connected
             = (List.map (fun _ => Ret (Some toolset0)) ws, sys_connected).
Proof.
  apply (connect_returns_existing_handle world_empty sys_connected toolset0);
    reflexivity.
Defined.

(** Once some [connect] has returned a handle, every later [connect] returns
    the same one until a [disconnect]. *)
Lemma successful_connects_agree (w w' : World) (s s' : Sys) (h : MCPToolset) :
  connect w s = (Ret (Some h), s') ->
  connect w' s' = (Ret (Some h), s').
Proof.
  intros H.
  destruct (connect_result w s)
    as [(h1 & s1 & E & Hc & Ht) | [(E & _) | (s1 & E & _)]];
    rewrite E in H; inversion H; subst.
  now apply connect_reuse.
Qed.



(** From fresh attributes the [try] body raises only while no handle is
    cached, so the [except] clause cleans up whatever the message says. *)
Lemma connect_fresh (w : World) (s : Sys) :
  self s = new_manager ->
  (exists h s', connect w s = (Ret (Some h), s')
     /\ _is_connected (self s') = true /\ _connection_attempted (self s') = true
     /\ _process (self s') = None /\ _toolset (self s') = Some h)
  \/ (exists s', connect w s = (Ret None, s') /\ self s' = new_manager).
Proof.
  intros Hs. rewrite connect_unfold. unfold reuse_guard, latch_guard.
  rewrite Hs. cbn [new_manager _is_connected _connection_attempted andb].
  unfold try_except.
  destruct (connect_try_cases w (set_self (set_connection_attempted true) s))
    as [(h & s' & -> & Hc & Ht & Hp & Ha) | (e & s' & -> & Ht & Hc & Hp & Ha)].
  - left. exists h, s'. cbn in Hp, Ha. rewrite Hs in Hp. split_and!; auto.
  - right. rewrite connect_except_spec.
    cbn in Ht. rewrite Hs in Ht. cbn in Ht. rewrite Ht.
    rewrite andb_false_r.
    destruct (cleanup_resets w s') as [fx ->]. eexists. split; reflexivity.
Qed.

(** On a fresh manager no failure of the [try] body is tolerated: the
    checks and the two constructors fail before a handle is cached, so even
    an exception carrying a list-roots marker ends in [_cleanup]. *)
Remark fresh_manager_tolerates_nothing (w : World) (s s' : Sys) (e : Exn) :
  self s = new_manager ->
  connect_try w (set_self (set_connection_attempted true) s) = (Raise e, s') ->
  fst (connect w s) = Ret None /\ self (snd (connect w s)) = new_manager.
Proof.
  intros Hs Ht.
  destruct (connect_fresh w s Hs)
    as [(h & s1 & E & _) | (s1 & E & Hn)]; rewrite E; [|now split].
  exfalso. rewrite connect_unfold in E. unfold reuse_guard, latch_guard in E.
  rewrite Hs in E. cbn [new_manager _is_connected _connection_attempted andb]
    in E.
  unfold try_except in E. rewrite Ht in E.
  rewrite connect_except_spec in E.
  destruct (connect_try_cases w (set_self (set_connection_attempted true) s))
    as [(h1 & s2 & E2 & _) | (e2 & s2 & E2 & Hts & _)];
    rewrite E2 in Ht; [discriminate|].
  injection Ht as <- <-. cbn in Hts. rewrite Hs in Hts. cbn in Hts.
  rewrite Hts, andb_false_r in E. discriminate.
Qed.

Lemma connect_consistent (w : World) (s : Sys) :
  consistent (self s) -> consistent (self (snd (connect w s))).
Proof.
  intros [Hn | (Hc & Ha & Hp & h & Ht)].
  - destruct (connect_fresh w s Hn)
      as [(h & s' & -> & Hc & Ha & Hp & Ht) | (s' & -> & Hs)]; cbn.
    + right. eauto.
    + now left.
  - rewrite (connect_reuse w s h Hc Ht). cbn. right. eauto.
Qed.

Lemma disconnect_consistent (w : World) (s : Sys) :
  consistent (self (snd (disconnect w s))).
Proof.
  unfold disconnect. destruct (cleanup_resets w s) as [fx ->]. now left.
Qed.

(** Every state reached from the fresh manager is [consistent]. *)
Lemma reachable_consistent (ops : list Op) : consistent (self (run_ops ops)).
Proof.
  unfold run_ops.
  assert (G : forall s, consistent (self s) ->
                        consistent (self (fold_left run_op ops s))).
  { induction ops as [|o ops IH]; intros s Hs; [exact Hs|].
    cbn [fold_left]. apply IH. destruct o as [w|w]; cbn [run_op].
    - now apply connect_consistent.
    - apply disconnect_consistent. }
  apply G. now left.
Qed.

(** The latch test of [connect] is false in every reachable state: the
    branch that answers [None] without an attempt is never taken. *)
Lemma latch_never_set (ops : list Op) :
  latch_guard (self (run_ops ops)) = false.
Proof.
  unfold latch_guard.
  destruct (reachable_consistent ops) as [-> | (Hc & _)]; [reflexivity|].
  rewrite Hc. apply andb_false_r.
Qed.

(** A [connect] that ends in [_cleanup] leaves the latch cleared with the
    other attributes. *)
Lemma fatal_failure_clears_latch (w : World) (s s' : Sys) :
  latch_guard (self s) = false ->
  connect w s = (Ret None, s') ->
  self s' = new_manager.
Proof.
  intros Hl H.
  destruct (connect_result w s)
    as [(h1 & s1 & E & _) | [(E & Hl') | (s1 & E & Hn & _)]].
  - rewrite E in H. discriminate.
  - congruence.
  - rewrite E in H. now inversion H; subst.
Qed.

(** After a fatal failure the next [connect] is a full attempt: it proceeds
    exactly as on a manager that never tried. *)
Lemma connect_after_fatal_is_fresh_attempt (w w' : World) (s s' : Sys) :
  latch_guard (self s) = false ->
  connect w s = (Ret None, s') ->
  connect w' s'
  = try_except (connect_try w') (connect_except w')
      (set_self (set_connection_attempted true) s').
Proof.
  intros Hl H. rewrite connect_unfold.
  rewrite (fatal_failure_clears_latch w s s' Hl H). reflexivity.
Qed.

(** C1 (the code departs from it): a [connect] with the secrets missing fails
    and cleans up, which clears the latch; the next [connect], with no
    [disconnect] in between, validates again, builds the parameters and the
    toolset and returns the new handle instead of [None]. *)
Theorem connect_retries_after_fatal_failure :
  let s1 := snd (connect world_empty new_sys) in
  fst (connect world_empty new_sys) = Ret None /\
  _connection_attempted (self s1) = false /\
  fst (connect world_ok s1)
  = Ret (Some {| toolset_id := 0;
                 connection_params :=
                   Some {| command := lit "npx";
                           args := [lit "-y"; lit "@brightdata/mcp"];
                           env := _create_mcp_environment world_ok |} |}) /\
  effects (snd (connect world_ok s1)) = [Built_params; Built_toolset 0] /\
  fst (connect world_empty s1) = Ret None /\
  fst (connect world_empty s1) <> fst (connect world_ok s1).
Proof.
  cbv zeta. split_and!; try (vm_compute; reflexivity).
  vm_compute. discriminate.
Qed.

(** ** The environment of the MCP server *)

Lemma create_mcp_environment_eq (w : World) :
  _create_mcp_environment w
  = list_to_map
      (omap (fun kv => match snd kv with
                       | Some v => Some (fst kv, v)
                       | None => None
                       end) (base_env w)).
Proof. reflexivity. Qed.

Ltac key_ne := vm_compute; congruence.

Ltac env_lookup :=
  repeat first
    [ rewrite lookup_insert_eq
    | rewrite lookup_insert_ne by key_ne
    | rewrite lookup_empty ].

(** The entries of the result, key by key. *)
Lemma create_mcp_environment_entries (w : World) :
  _create_mcp_environment w !! lit "API_TOKEN"
    = getenv w (lit "BRIGHTDATA_API_TOKEN") /\
  _create_mcp_environment w !! lit "BRIGHTDATA_API_TOKEN"
    = getenv w (lit "BRIGHTDATA_API_TOKEN") /\
  _create_mcp_environment w !! lit "BROWSER_AUTH"
    = getenv w (lit "BROWSER_AUTH") /\
  _create_mcp_environment w !! lit "WEB_UNLOCKER_ZONE"
    = Some (getenv_default w (lit "WEB_UNLOCKER_ZONE") (lit "web_unlocker1")) /\
  _create_mcp_environment w !! lit "NODE_ENV"
    = Some (getenv_default w (lit "NODE_ENV") (lit "production")) /\
  _create_mcp_environment w !! lit "PATH"
    = Some (getenv_default w (lit "PATH") (lit "")) /\
  _create_mcp_environment w !! lit "NPM_CONFIG_REGISTRY"
    = Some (lit "https://registry.npmjs.org/") /\
  _create_mcp_environment w !! lit "NODE_OPTIONS"
    = Some (lit "--max-old-space-size=2048").
Proof.
  rewrite create_mcp_environment_eq. unfold base_env.
  destruct (getenv w (lit "BRIGHTDATA_API_TOKEN")) as [tk|];
    destruct (getenv w (lit "BROWSER_AUTH")) as [au|];
    cbn [omap list_omap snd fst list_to_map foldr uncurry];
    split_and!; env_lookup; reflexivity.
Qed.

(** Two process environments that agree on the five variables read give the
    same dictionary. *)
Lemma create_mcp_environment_deterministic (w w' : World) :
  agree_on_variables_read w w' ->
  _create_mcp_environment w = _create_mcp_environment w'.
Proof.
  unfold agree_on_variables_read, variables_read. intros H.
  repeat (apply Forall_cons in H as [? H]). cbv beta in *.
  rewrite !create_mcp_environment_eq. unfold base_env, getenv_default.
  unfold getenv in *.
  repeat match goal with E : environ w !! _ = _ |- _ => rewrite E; clear E end.
  reflexivity.
Qed.

(** C9, as the spec states it, fails: with [PATH] absent from the process
    environment the result still has a [PATH] entry, the empty string; and an
    absent zone or mode variable yields the default, not an omission. *)
Lemma absent_path_emitted_as_empty_string :
  getenv world_empty (lit "PATH") = None /\
  _create_mcp_environment world_empty !! lit "PATH" = Some (lit "") /\
  _create_mcp_environment world_empty !! lit "WEB_UNLOCKER_ZONE"
    = Some (lit "web_unlocker1") /\
  ~ (forall w key var, In (key, var) entry_source ->
       getenv w var = None -> _create_mcp_environment w !! key = None).
Proof.
  split_and!; try (vm_compute; reflexivity).
  intros H.
  specialize (H world_empty (lit "PATH") (lit "PATH")).
  assert (E : _create_mcp_environment world_empty !! lit "PATH" = None).
  { apply H; [|vm_compute; reflexivity].
    unfold entry_source. do 5 right. left. reflexivity. }
  vm_compute in E. discriminate.
Qed.

(** C9, amended: the result is a function of the five variables read; an
    entry of a required secret is present exactly when its variable is, with
    the variable's value; the zone and mode entries are always present, with
    the fixed default when the variable is absent; [PATH] is always present,
    as the empty string when the variable is absent; the two tuning values
    are always present. *)
Theorem create_mcp_environment_entries_by_source (w w' : World) :
  agree_on_variables_read w w' ->
  _create_mcp_environment w = _create_mcp_environment w' /\
  _create_mcp_environment w !! lit "API_TOKEN"
    = getenv w (lit "BRIGHTDATA_API_TOKEN") /\
  _create_mcp_environment w !! lit "BRIGHTDATA_API_TOKEN"
    = getenv w (lit "BRIGHTDATA_API_TOKEN") /\
  _create_mcp_environment w !! lit "BROWSER_AUTH"
    = getenv w (lit "BROWSER_AUTH") /\
  _create_mcp_environment w !! lit "WEB_UNLOCKER_ZONE"
    = Some (getenv_default w (lit "WEB_UNLOCKER_ZONE") (lit "web_unlocker1")) /\
  _create_mcp_environment w !! lit "NODE_ENV"
    = Some (getenv_default w (lit "NODE_ENV") (lit "production")) /\
  _create_mcp_environment w !! lit "PATH"
    = Some (getenv_default w (lit "PATH") (lit "")) /\
  _create_mcp_environment w !! lit "NPM_CONFIG_REGISTRY"
    = Some (lit "https://registry.npmjs.org/") /\
  _create_mcp_environment w !! lit "NODE_OPTIONS"
    = Some (lit "--max-old-space-size=2048").
Proof.
  intros H. split.
  - now apply create_mcp_environment_deterministic.
  - apply create_mcp_environment_entries.
Qed.

Lemma create_mcp_environment_entries_by_source_witness :
  _create_mcp_environment world_ok = _create_mcp_environment world_ok_home /\
  _create_mcp_environment world_ok !! lit "API_TOKEN"
    = getenv world_ok (lit "BRIGHTDATA_API_TOKEN") /\
  _create_mcp_environment world_ok !! lit "BRIGHTDATA_API_TOKEN"
    = getenv world_ok (lit "BRIGHTDATA_API_TOKEN") /\
  _create_mcp_environment world_ok !! lit "BROWSER_AUTH"
    = getenv world_ok (lit "BROWSER_AUTH") /\
  _create_mcp_environment world_ok !! lit "WEB_UNLOCKER_ZONE"
    = Some (getenv_default world_ok (lit "WEB_UNLOCKER_ZONE")
              (lit "web_unlocker1")) /\
  _create_mcp_environment world_ok !! lit "NODE_ENV"
    = Some (getenv_default world_ok (lit "NODE_ENV") (lit "production")) /\
  _create_mcp_environment world_ok !! lit "PATH"
    = Some (getenv_default world_ok (lit "PATH") (lit "")) /\
  _create_mcp_environment world_ok !! lit "NPM_CONFIG_REGISTRY"
    = Some (lit "https://registry.npmjs.org/") /\
  _create_mcp_environment world_ok !! lit "NODE_OPTIONS"
    = Some (lit "--max-old-space-size=2048").
Proof.
  apply (create_mcp_environment_entries_by_source world_ok world_ok_home).
  unfold agree_on_variables_read, variables_read.
  repeat (apply Forall_cons; split; [vm_compute; reflexivity|]).
  apply Forall_nil. exact I.
Defined.

(** ** The chat endpoint *)

Section FinalText.

Context (rq : Incoming).

Lemma timeout_note_kept : rstrip timeout_note = timeout_note.
Proof. vm_compute. reflexivity. Qed.

Lemma timeout_message_kept : strip timeout_message = timeout_message.
Proof. vm_compute. reflexivity. Qed.

Lemma final_text_unfold :
  final_text rq
  = if negb (nonempty (strip (snd (run_guarded rq []))))
    then fallback_message
    else strip (snd (run_guarded rq [])).
Proof. reflexivity. Qed.

(** The text after a deadline: the buffer without its leading whitespace and
    the note after it, or the timed-out message when the buffer is blank. *)
Lemma final_text_timeout (buf : pystr) :
  wait_for_run rq [] = (Raise TimeoutError, buf) ->
  final_text rq
  = if nonempty (strip buf) then lstrip buf ++ timeout_note
    else timeout_message.
Proof.
  intros H. rewrite final_text_unfold.
  unfold run_guarded, run_with_timeout, try_except, try_except_timeout.
  rewrite H. unfold bind, get, modify.
  destruct (nonempty (strip buf)) eqn:E; cbn [snd].
  - apply nonempty_true in E.
    rewrite (strip_app_keep buf timeout_note E timeout_note_kept)
      by (vm_compute; discriminate).
    replace (nonempty (lstrip buf ++ timeout_note)) with true; [reflexivity|].
    symmetry. apply nonempty_true. intros F.
    apply app_eq_nil in F as [_ F]. vm_compute in F. discriminate.
  - rewrite timeout_message_kept. reflexivity.
Qed.

(** The text after an exception that is not a timeout. *)
Lemma final_text_error (e : Exn) (buf : pystr) :
  wait_for_run rq [] = (Raise e, buf) ->
  e <> TimeoutError ->
  final_text rq = strip (error_prefix ++ exn_str e) /\
  final_text rq
  = if nonempty (rstrip (exn_str e))
    then error_prefix ++ rstrip (exn_str e)
    else rstrip error_prefix.
Proof.
  intros H Hne.
  assert (L : lstrip (error_prefix ++ exn_str e) = error_prefix ++ exn_str e).
  { rewrite lstrip_app_nonblank by (vm_compute; discriminate).
    f_equal. }
  assert (R : strip (error_prefix ++ exn_str e)
              = if nonempty (rstrip (exn_str e))
                then error_prefix ++ rstrip (exn_str e)
                else rstrip error_prefix).
  { unfold strip. rewrite L.
    destruct (nonempty (rstrip (exn_str e))) eqn:E.
    - apply nonempty_true in E. now apply rstrip_app_nonblank.
    - apply nonempty_false in E. now apply rstrip_app_blank. }
  assert (G : snd (run_guarded rq []) = error_prefix ++ exn_str e).
  { unfold run_guarded, run_with_timeout, try_except, try_except_timeout.
    rewrite H. destruct e; try reflexivity. congruence. }
  assert (F : final_text rq = strip (error_prefix ++ exn_str e)).
  { rewrite final_text_unfold, G.
    replace (nonempty (strip (error_prefix ++ exn_str e))) with true;
      [reflexivity|].
    symmetry. apply nonempty_true. rewrite R.
    destruct (nonempty (rstrip (exn_str e))).
    - intros F. apply app_eq_nil in F as [F _]. vm_compute in F. discriminate.
    - vm_compute. discriminate. }
  split; [exact F | now rewrite F].
Qed.

(** The text after a stream that ends by itself. *)
Lemma final_text_complete (buf : pystr) :
  wait_for_run rq [] = (Ret tt, buf) ->
  final_text rq
  = if nonempty (strip buf) then strip buf else fallback_message.
Proof.
  intros H. rewrite final_text_unfold.
  unfold run_guarded, run_with_timeout, try_except, try_except_timeout.
  rewrite H. cbn [snd]. now destruct (nonempty (strip buf)).
Qed.


End FinalText.

Section ChatFacts.

Context (rq : Incoming).

Lemma same_store_refl a : same_store a a.
Proof. now split. Qed.

Lemma same_store_trans a b c :
  same_store a b -> same_store b c -> same_store a c.
Proof. unfold same_store. intros [] []. split; congruence. Qed.

Lemma get_mcp_tools_store a : same_store a (snd (get_mcp_tools rq a)).
Proof.
  unfold get_mcp_tools, on_manager. unfold_m.
  destruct (connect (world rq) (_mcp_manager a)) as [[o|e] s']; cbn;
    now split.
Qed.

Lemma call_store {A} (c : Call) (k : M App A) a :
  (forall a0 : App, same_store a0 (snd (k a0))) ->
  same_store a (snd ((call (world rq) c ;;; k) a)).
Proof.
  intros Hk. unfold call, bind, raise, ret.
  destruct (raises (world rq) c); cbn; [apply same_store_refl | apply Hk].
Qed.

Lemma get_agent_async_store a : same_store a (snd (get_agent_async rq a)).
Proof.
  unfold get_agent_async. unfold bind at 1. unfold get at 1. cbv beta iota.
  destruct (_agent_instance a); [apply same_store_refl|].
  unfold try_except. unfold bind at 1.
  pose proof (get_mcp_tools_store a) as H1.
  destruct (get_mcp_tools rq a) as [[tools|e] a1]; cbn [snd] in *.
  - unfold call, bind, raise, ret, modify.
    destruct (raises (world rq) Call_Agent); cbn.
    + destruct (raises (world rq) Call_Agent_fallback); cbn; exact H1.
    + exact H1.
  - unfold call, bind, raise, ret, modify.
    destruct (raises (world rq) Call_Agent_fallback); cbn; exact H1.
Qed.

Lemma get_shared_session_service_store a :
  same_store a (snd (get_shared_session_service rq a)).
Proof.
  unfold get_shared_session_service. unfold_m.
  destruct (_session_service a); cbn; [apply same_store_refl|].
  destruct (raises (world rq) Call_InMemorySessionService); cbn; now split.
Qed.

Lemma get_shared_runner_store a :
  same_store a (snd (get_shared_runner rq a)).
Proof.
  unfold get_shared_runner. unfold bind at 1. unfold get at 1. cbv beta iota.
  destruct (_runner_instance a); [apply same_store_refl|].
  unfold bind at 1.
  pose proof (get_agent_async_store a) as H1.
  destruct (get_agent_async rq a) as [[ag|e] a1]; cbn [snd] in *; [|exact H1].
  unfold bind at 1.
  pose proof (get_shared_session_service_store a1) as H2.
  destruct (get_shared_session_service rq a1) as [[sv|e] a2]; cbn [snd] in *;
    [| now apply (same_store_trans a a1 a2)].
  unfold call, bind, raise, ret, modify.
  destruct (raises (world rq) Call_Runner); cbn;
    now apply (same_store_trans a a1 a2).
Qed.

(** When [open_session] returns, exactly one session has been stored, under
    the identifier the service allocated and for the user derived from the
    caller's session id. *)
Lemma open_session_result (m : ChatMessage.t) (a a' : App)
  (session : Session.t) :
  open_session rq m a = (Ret session, a') ->
  session = {| Session.id := new_session_id rq;
               Session.app_name := lit "adk_mcp_fastapi";
               Session.user_id :=
                 lit "user_" ++ format_optional (ChatMessage.session_id m);
               Session.state := ∅ |} /\
  sessions a' = sessions a ++ [session] /\
  runs a' = runs a.
Proof.
  unfold open_session. unfold bind at 1.
  pose proof (get_shared_session_service_store a) as H1.
  destruct (get_shared_session_service rq a) as [[sv|e] a1]; cbn [snd] in *;
    [|discriminate].
  unfold bind at 1.
  pose proof (get_shared_runner_store a1) as H2.
  destruct (get_shared_runner rq a1) as [[rn|e] a2]; cbn [snd] in *;
    [|discriminate].
  unfold create_session, call, bind, raise, ret, modify.
  destruct (raises (world rq) Call_create_session); [discriminate|].
  intros [= <- <-]. destruct H1 as [S1 R1], H2 as [S2 R2].
  cbn. split_and!; [reflexivity | now rewrite S2, S1 | now rewrite R2, R1].
Qed.

(** [chat], one path at a time. *)
Lemma chat_blank (m : ChatMessage.t) (a : App) :
  nonempty (strip (ChatMessage.message m)) = false ->
  chat rq m a
  = (Raise (HTTPException 500
              (lit "Internal server error: "
               ++ exn_str (HTTPException 400 (lit "No message provided")))),
     a).
Proof.
  intros H. unfold chat, try_except. unfold bind at 1. rewrite H. reflexivity.
Qed.

Lemma chat_open_fails (m : ChatMessage.t) (a a' : App) (e : Exn) :
  nonempty (strip (ChatMessage.message m)) = true ->
  open_session rq m a = (Raise e, a') ->
  chat rq m a
  = (Raise (HTTPException 500 (lit "Internal server error: " ++ exn_str e)),
     a').
Proof.
  intros H Ho. unfold chat, try_except. unfold bind at 1. rewrite H.
  cbn [negb]. unfold ret at 1. unfold bind at 1. rewrite Ho. reflexivity.
Qed.

Lemma chat_open_ok (m : ChatMessage.t) (a a' : App) (session : Session.t) :
  nonempty (strip (ChatMessage.message m)) = true ->
  open_session rq m a = (Ret session, a') ->
  chat rq m a
  = match ChatMessage.session_id m with
    | Some sid =>
        (Ret {| ChatResponse.response := final_text rq;
                ChatResponse.session_id := sid;
                ChatResponse.status := lit "success" |},
         add_run (Session.id session) a')
    | None =>
        (Raise (HTTPException 500
                  (lit "Internal server error: " ++ validation_error rq)),
         add_run (Session.id session) a')
    end.
Proof.
  intros H Ho. unfold chat, try_except. unfold bind at 1. rewrite H.
  cbn [negb]. unfold ret at 1. unfold bind at 1. rewrite Ho.
  unfold bind, modify, ChatResponse_init.
  destruct (ChatMessage.session_id m); reflexivity.
Qed.

(** A call that returns a response went through [open_session]. *)
Lemma chat_returns (m : ChatMessage.t) (a a' : App) (r : ChatResponse.t) :
  chat rq m a = (Ret r, a') ->
  nonempty (strip (ChatMessage.message m)) = true /\
  exists session a1,
    open_session rq m a = (Ret session, a1) /\
    a' = add_run (Session.id session) a1 /\
    ChatMessage.session_id m = Some (ChatResponse.session_id r) /\
    ChatResponse.response r = final_text rq /\
    ChatResponse.status r = lit "success".
Proof.
  intros H.
  destruct (nonempty (strip (ChatMessage.message m))) eqn:E;
    [| rewrite chat_blank in H by exact E; discriminate].
  split; [reflexivity|].
  destruct (open_session rq m a) as [[session|e] a1] eqn:Ho;
    [| rewrite (chat_open_fails m a a1 e E Ho) in H; discriminate].
  rewrite (chat_open_ok m a a1 session E Ho) in H.
  destruct (ChatMessage.session_id m) as [sid|]; [|discriminate].
  injection H as <- <-. exists session, a1. cbn. now split_and!.
Qed.

End ChatFacts.

(** *** Deadline *)

Lemma wait_for_run_deadline (rq : Incoming) (buf : pystr) :
  consume rq (events rq) [] = (Ret tt, buf) ->
  ending rq = Deadline_expires ->
  wait_for_run rq [] = (Raise TimeoutError, buf).
Proof.
  intros Hc He. unfold wait_for_run, bind. now rewrite Hc, He.
Qed.

Lemma wait_for_run_ends (rq : Incoming) (buf : pystr) :
  consume rq (events rq) [] = (Ret tt, buf) ->
  ending rq = Stream_ends ->
  wait_for_run rq [] = (Ret tt, buf).
Proof.
  intros Hc He. unfold wait_for_run, bind. now rewrite Hc, He.
Qed.

(** C3, as the spec states it, fails on its example: every piece of text is
    followed by a newline in the buffer, so the response to ["Hello "] then
    ["World"] cut by the deadline has no ["Hello World"] in it, whichever of
    the recognised shapes the two events have. *)
Lemma hello_world_not_in_timeout_response :
  fst (chat hello_world_timeout (ChatMessage.parse (lit "hi") None) new_app)
  = Ret (success_response hello_world_response (lit "default")) /\
  contains (lit "Hello World") hello_world_response = false /\
  fst (chat (incoming [message_event (lit "Hello ");
                       message_event (lit "World")] Deadline_expires)
         (ChatMessage.parse (lit "hi") None) new_app)
  = Ret (success_response hello_world_response (lit "default")) /\
  fst (chat (incoming [flat_event (lit "Hello ");
                       flat_event (lit "World")] Deadline_expires)
         (ChatMessage.parse (lit "hi") None) new_app)
  = Ret (success_response hello_world_response (lit "default")).
Proof. split_and!; vm_compute; reflexivity. Qed.

(** C3, amended: when the deadline cuts the consumption of the events, the
    call returns with status ["success"]; the response is the buffer without
    its leading whitespace followed by the timed-out note when the buffer has
    visible text, and the request-timed-out message otherwise.  For the
    stream ["Hello "], ["World"] the response is ["Hello \nWorld\n"] followed
    by the note. *)
Theorem chat_timeout_keeps_partial_text
  (rq : Incoming) (msg sid : pystr) (a a' : App) (session : Session.t)
  (buf : pystr) :
  nonempty (strip msg) = true ->
  open_session rq {| ChatMessage.message := msg;
                     ChatMessage.session_id := Some sid |} a
  = (Ret session, a') ->
  consume rq (events rq) [] = (Ret tt, buf) ->
  ending rq = Deadline_expires ->
  chat rq {| ChatMessage.message := msg;
             ChatMessage.session_id := Some sid |} a
  = (Ret (success_response
            (if nonempty (strip buf) then lstrip buf ++ timeout_note
             else timeout_message) sid),
     add_run (Session.id session) a') /\
  (events rq = [text_event (lit "Hello "); text_event (lit "World")] ->
   (if nonempty (strip buf) then lstrip buf ++ timeout_note
    else timeout_message) = hello_world_response).
Proof.
  intros Hm Ho Hc He. split.
  - rewrite (chat_open_ok rq {| ChatMessage.message := msg;
                               ChatMessage.session_id := Some sid |}
               a a' session Hm Ho).
    cbn [ChatMessage.session_id].
    rewrite (final_text_timeout rq buf (wait_for_run_deadline rq buf Hc He)).
    reflexivity.
  - intros Hev. rewrite Hev in Hc. vm_compute in Hc.
    injection Hc as <-. vm_compute. reflexivity.
Qed.

Lemma chat_timeout_keeps_partial_text_witness :
  chat hello_world_timeout
    {| ChatMessage.message := lit "hi";
       ChatMessage.session_id := Some (lit "default") |} new_app
  = (Ret (success_response
            (if nonempty (strip (lit "Hello " ++ [10] ++ lit "World" ++ [10]))
             then lstrip (lit "Hello " ++ [10] ++ lit "World" ++ [10])
                  ++ timeout_note
             else timeout_message) (lit "default")),
     add_run (Session.id default_session)
       (snd (open_session hello_world_timeout
               {| ChatMessage.message := lit "hi";
                  ChatMessage.session_id := Some (lit "default") |}
               new_app))) /\
  (events hello_world_timeout
   = [text_event (lit "Hello "); text_event (lit "World")] ->
   (if nonempty (strip (lit "Hello " ++ [10] ++ lit "World" ++ [10]))
    then lstrip (lit "Hello " ++ [10] ++ lit "World" ++ [10]) ++ timeout_note
    else timeout_message) = hello_world_response).
Proof.
  apply (chat_timeout_keeps_partial_text hello_world_timeout (lit "hi")
           (lit "default") new_app _ default_session
           (lit "Hello " ++ [10] ++ lit "World" ++ [10]));
    vm_compute; reflexivity.
Defined.

(** *** Failure of the run *)



(** *** Completion *)



(** *** Session identifiers *)

(** C10: the [session_id] of a returned response is the one the caller sent,
    ["default"] when the field was left out, whatever identifier the session
    service allocated and whatever it stores; and each such call stores one
    more session, under the allocated identifier, on which the run starts. *)
Theorem chat_session_id_is_callers
  (rq : Incoming) (m : ChatMessage.t) (a a' : App) (r : ChatResponse.t) :
  chat rq m a = (Ret r, a') ->
  ChatMessage.session_id m = Some (ChatResponse.session_id r) /\
  (forall msg, ChatMessage.session_id (ChatMessage.parse msg None)
               = Some (lit "default")) /\
  (forall rq' a0 a1 r',
     chat rq' m a0 = (Ret r', a1) ->
     ChatResponse.session_id r' = ChatResponse.session_id r) /\
  sessions a'
  = sessions a
    ++ [{| Session.id := new_session_id rq;
           Session.app_name := lit "adk_mcp_fastapi";
           Session.user_id := lit "user_" ++ ChatResponse.session_id r;
           Session.state := ∅ |}] /\
  runs a' = runs a ++ [new_session_id rq].
Proof.
  intros H.
  destruct (chat_returns rq m a a' r H)
    as (_ & session & a1 & Ho & -> & Hs & _ & _).
  destruct (open_session_result rq m a a1 session Ho) as (Es & Hss & Hr).
  rewrite Hs in Es. cbn [format_optional] in Es.
  split_and!.
  - exact Hs.
  - reflexivity.
  - intros rq' a0 a2 r' H'.
    destruct (chat_returns rq' m a0 a2 r' H') as (_ & _ & _ & _ & _ & Hs' & _).
    congruence.
  - cbn [add_run sessions]. now rewrite Hss, Es.
  - cbn [add_run runs]. now rewrite Hr, Es.
Qed.

Lemma chat_session_id_is_callers_witness :
  ChatMessage.session_id (ChatMessage.parse (lit "compare prices") None)
  = Some (ChatResponse.session_id
            (success_response (lit "Price: $10") (lit "default"))) /\
  (forall msg, ChatMessage.session_id (ChatMessage.parse msg None)
               = Some (lit "default")) /\
  (forall rq' a0 a1 r',
     chat rq' (ChatMessage.parse (lit "compare prices") None) a0
     = (Ret r', a1) ->
     ChatResponse.session_id r'
     = ChatResponse.session_id
         (success_response (lit "Price: $10") (lit "default"))) /\
  sessions (snd (chat price_stream
                   (ChatMessage.parse (lit "compare prices") None) new_app))
  = sessions new_app
    ++ [{| Session.id := new_session_id price_stream;
           Session.app_name := lit "adk_mcp_fastapi";
           Session.user_id :=
             lit "user_"
             ++ ChatResponse.session_id
                  (success_response (lit "Price: $10") (lit "default"));
           Session.state := ∅ |}] /\
  runs (snd (chat price_stream
               (ChatMessage.parse (lit "compare prices") None) new_app))
  = runs new_app ++ [new_session_id price_stream].
Proof.
  apply (chat_session_id_is_callers price_stream
           (ChatMessage.parse (lit "compare prices") None) new_app _
           (success_response (lit "Price: $10") (lit "default"))).
  vm_compute. reflexivity.
Defined.

(** Two calls with the same caller session id store two sessions, each
    under the identifier the service allocated for it; the second call reuses
    the runner of the first and starts no second toolset. *)
Example two_chats_two_sessions :
  let a1 := snd (chat price_stream hi_default new_app) in
  let a2 := snd (chat price_stream_again hi_default a1) in
  fst (chat price_stream_again hi_default a1)
  = Ret (success_response (lit "Price: $10") (lit "default")) /\
  List.map Session.id (sessions a2) = [lit "5f0c6a2e"; lit "9b1d4c77"] /\
  List.map Session.user_id (sessions a2)
  = [lit "user_default"; lit "user_default"] /\
  runs a2 = [lit "5f0c6a2e"; lit "9b1d4c77"] /\
  _runner_instance a2 = _runner_instance a1 /\
  effects (_mcp_manager a2) = [Built_params; Built_toolset 0].
Proof. cbv zeta. split_and!; vm_compute; reflexivity. Qed.

(** *** Validation of the message *)

(** C4 (the code departs from it): for a message made of whitespace only,
    the empty one included, the [HTTPException] with status 400 is raised
    inside the [try] whose [except Exception] turns every exception into
    status 500, so the caller receives a server error, not a client error.
    No session is stored and no run starts: the state is unchanged. *)
Theorem chat_blank_message_is_server_error
  (rq : Incoming) (m : ChatMessage.t) (a : App) :
  forallb isspace (ChatMessage.message m) = true ->
  chat rq m a
  = (Raise (HTTPException 500
              (lit "Internal server error: 400: No message provided")), a).
Proof.
  intros H. apply strip_blank in H.
  rewrite chat_blank by (now rewrite H).
  repeat f_equal.
Qed.

Lemma chat_blank_message_is_server_error_witness :
  chat silent_stream (ChatMessage.parse (lit "   ") None) new_app
  = (Raise (HTTPException 500
              (lit "Internal server error: 400: No message provided")),
     new_app).
Proof.
  apply (chat_blank_message_is_server_error silent_stream
           (ChatMessage.parse (lit "   ") None) new_app).
  vm_compute. reflexivity.
Defined.

Example chat_empty_message (rq : Incoming) (a : App) :
  fst (chat rq (ChatMessage.parse (lit "") None) a)
  = Raise (HTTPException 500
             (lit "Internal server error: 400: No message provided")).
Proof. now rewrite chat_blank. Qed.

(** A [null] session id passes [ChatMessage] and is refused by
    [ChatResponse]: after the run the caller receives status 500. *)
Remark chat_null_session_id
  (rq : Incoming) (msg : pystr) (a a' : App) (session : Session.t) :
  nonempty (strip msg) = true ->
  open_session rq (ChatMessage.parse msg (Some None)) a = (Ret session, a') ->
  chat rq (ChatMessage.parse msg (Some None)) a
  = (Raise (HTTPException 500
              (lit "Internal server error: " ++ validation_error rq)),
     add_run (Session.id session) a').
Proof.
  intros Hm Ho.
  now rewrite (chat_open_ok rq (ChatMessage.parse msg (Some None))
                 a a' session Hm Ho).
Qed.

(** * Further properties of the code *)

(** ** The connection manager *)

(** [_cleanup] only ever signals the process; it builds nothing. *)
Lemma cleanup_signals_only (w : World) (s : Sys) :
  exists fx,
    _cleanup w s
    = (Ret tt, {| self := new_manager; effects := effects s ++ fx;
                  next_id := next_id s |})
    /\ forallb is_process_signal fx = true
    /\ (_process (self s) = None -> fx = []).
Proof.
  destruct s as [[t p cp ic ca] fx n].
  unfold _cleanup. unfold_m. simpl.
  destruct p as [p|]; simpl.
  - destruct (raises w Call_terminate); simpl;
      [exists []; rewrite app_nil_r; split_and!; easy|].
    destruct (raises w Call_sleep); simpl;
      [eexists; split_and!; [reflexivity | reflexivity | easy]|].
    destruct (raises w Call_poll); simpl;
      [eexists; rewrite <- !app_assoc; split_and!;
       [reflexivity | reflexivity | easy]|].
    destruct (poll_result w); simpl;
      [eexists; rewrite <- !app_assoc; split_and!;
       [reflexivity | reflexivity | easy]|].
    destruct (raises w Call_kill); simpl;
      eexists; rewrite <- !app_assoc; split_and!;
       [reflexivity | reflexivity | easy | reflexivity | reflexivity | easy].
  - exists []. rewrite app_nil_r. split_and!; easy.
Qed.

(** The two messages of the validation carry no list-roots marker. *)
Lemma validation_errors_are_fatal :
  list_roots_error (lit "BRIGHTDATA_API_TOKEN not found in environment") = false
  /\ list_roots_error (lit "BROWSER_AUTH not found in environment") = false.
Proof. split; vm_compute; reflexivity. Qed.

(** With a secret unset or empty the [try] body raises at once. *)
Lemma connect_try_missing_secret (w : World) (s : Sys) :
  configured w (lit "BRIGHTDATA_API_TOKEN")
  && configured w (lit "BROWSER_AUTH") = false ->
  exists msg, connect_try w s = (Raise (ValueError msg), s)
              /\ list_roots_error msg = false.
Proof.
  unfold configured. intros H.
  destruct validation_errors_are_fatal as [V1 V2].
  unfold connect_try. unfold bind at 1.
  destruct (truthy_str (getenv w (lit "BRIGHTDATA_API_TOKEN"))) eqn:E1;
    cbn [negb].
  - cbn [andb] in H. unfold ret at 1. unfold bind at 1. rewrite H. cbn [negb].
    eexists. split; [reflexivity | exact V2].
  - eexists. split; [reflexivity | exact V1].
Qed.

Lemma signals_build_nothing (fx : list Effect) :
  forallb is_process_signal fx = true ->
  List.filter is_built_toolset fx = [].
Proof.
  induction fx as [|e fx IH]; [reflexivity|]. cbn.
  destruct e; cbn; try discriminate; exact IH.
Qed.

(** [connect] on a fresh manager, case by case: the validation, the two
    constructors, then success. *)
Lemma connect_fresh_eq (w : World) (s : Sys) :
  self s = new_manager ->
  connect w s
  = if configured w (lit "BRIGHTDATA_API_TOKEN")
       && configured w (lit "BROWSER_AUTH")
    then match raises w Call_StdioServerParameters with
         | Some _ => (Ret None, s)
         | None =>
             match raises w Call_MCPToolset with
             | Some _ =>
                 (Ret None,
                  {| self := new_manager;
                     effects := effects s ++ [Built_params];
                     next_id := next_id s |})
             | None =>
                 (Ret (_toolset (self (connected_sys w s))),
                  connected_sys w s)
             end
         end
    else (Ret None, s).
Proof.
  destruct s as [m fx n]. cbn [self]. intros ->.
  rewrite connect_unfold. cbn [self reuse_guard latch_guard new_manager
    _is_connected _connection_attempted andb]. unfold try_except.
  destruct (configured w (lit "BRIGHTDATA_API_TOKEN")
            && configured w (lit "BROWSER_AUTH")) eqn:Hc.
  - apply andb_true_iff in Hc as [H1 H2]. unfold configured in H1, H2.
    unfold connect_try, _test_connection. unfold_m.
    rewrite H1, H2. cbn -[_create_mcp_environment lit _cleanup connect_except].
    destruct (raises w Call_StdioServerParameters) as [e|];
      cbn -[_create_mcp_environment lit _cleanup connect_except].
    { rewrite connect_except_spec. cbn [self _toolset truthy set_self
        set_connection_attempted]. rewrite andb_false_r.
      now rewrite cleanup_no_process. }
    destruct (raises w Call_MCPToolset) as [e|];
      cbn -[_create_mcp_environment lit _cleanup connect_except].
    { rewrite connect_except_spec. cbn [self _toolset truthy set_self
        set_connection_attempted]. rewrite andb_false_r.
      now rewrite cleanup_no_process. }
    unfold connected_sys, stdio_params, set_self. cbn -[_create_mcp_environment lit].
    now rewrite <- app_assoc.
  - destruct (connect_try_missing_secret w
                (set_self (set_connection_attempted true)
                   {| self := new_manager; effects := fx; next_id := n |}) Hc)
      as (msg & -> & Hm).
    rewrite connect_except_spec. cbn [exn_str]. rewrite Hm. cbn [andb].
    now rewrite cleanup_no_process.
Qed.

Lemma toolsets_built_app (s : Sys) (m : MCPConnectionManager) (fx : list Effect)
  (n : nat) :
  toolsets_built {| self := m; effects := effects s ++ fx; next_id := n |}
  = (toolsets_built s + length (List.filter is_built_toolset fx))%nat.
Proof.
  unfold toolsets_built. cbn [effects].
  now rewrite List.filter_app, length_app.
Qed.

Lemma well_formed_process (s : Sys) : well_formed s -> _process (self s) = None.
Proof.
  intros [[-> | (_ & _ & Hp & _)] _]; [reflexivity | exact Hp].
Qed.

Lemma connect_well_formed (w : World) (s : Sys) :
  well_formed s -> well_formed (snd (connect w s)).
Proof.
  intros Hwf. pose proof Hwf as [[Hn | (Hc & Ha & Hp & h & p & Ht & Hrest)] [Hs Hb]].
  - rewrite (connect_fresh_eq w s Hn).
    destruct (configured w (lit "BRIGHTDATA_API_TOKEN")
              && configured w (lit "BROWSER_AUTH")); [|exact Hwf].
    destruct (raises w Call_StdioServerParameters); [exact Hwf|].
    destruct (raises w Call_MCPToolset); cbn [snd].
    + split_and!.
      * now left.
      * cbn [effects]. rewrite List.filter_app, Hs. reflexivity.
      * rewrite toolsets_built_app, Hb. cbn. apply Nat.add_0_r.
    + split_and!.
      * right. cbn. split_and!; try reflexivity.
        eexists _, _. split_and!; try reflexivity. apply Nat.lt_succ_diag_r.
      * cbn [effects connected_sys]. rewrite List.filter_app, Hs. reflexivity.
      * unfold connected_sys. rewrite toolsets_built_app, Hb. cbn.
        apply Nat.add_1_r.
  - now rewrite (connect_reuse w s h Hc Ht).
Qed.

Lemma disconnect_fresh (w : World) (s : Sys) :
  _process (self s) = None ->
  disconnect w s
  = (Ret tt, {| self := new_manager; effects := effects s;
                next_id := next_id s |}).
Proof. apply cleanup_no_process. Qed.

Lemma disconnect_well_formed (w : World) (s : Sys) :
  well_formed s -> well_formed (snd (disconnect w s)).
Proof.
  intros Hwf. rewrite (disconnect_fresh w s (well_formed_process s Hwf)).
  destruct Hwf as [_ [Hs Hb]]. cbn [snd]. split_and!; [now left | exact Hs | exact Hb].
Qed.

Lemma run_op_well_formed (s : Sys) (o : Op) :
  well_formed s -> well_formed (run_op s o).
Proof.
  destruct o; cbn [run_op];
    [apply connect_well_formed | apply disconnect_well_formed].
Qed.

Lemma fold_well_formed (ops : list Op) (s : Sys) :
  well_formed s -> well_formed (fold_left run_op ops s).
Proof.
  revert s. induction ops as [|o ops IH]; intros s Hs; [exact Hs|].
  cbn [fold_left]. apply IH. now apply run_op_well_formed.
Qed.

Lemma reachable_well_formed (ops : list Op) : well_formed (run_ops ops).
Proof.
  apply fold_well_formed. split_and!; [now left | reflexivity | reflexivity].
Qed.

(** X1: [connect] never raises: whatever the state and whatever the
    environment and the constructors do, it returns a handle or [None]. *)
Theorem connect_never_raises (w : World) (s : Sys) :
  exists r s', connect w s = (Ret r, s').
Proof.
  destruct (connect_result w s)
    as [(h & s' & E & _) | [(E & _) | (s' & E & _)]]; rewrite E; eauto.
Qed.

(** X2: in every state reached from the fresh manager, either all the
    attributes are as [__init__] set them, or the manager is connected and
    the properties [is_connected] and [toolset] give a handle that was built
    from the cached parameters, which launch [npx]. *)
Theorem reachable_connected_has_handle (ops : list Op) :
  self (run_ops ops) = new_manager \/
  (is_connected (self (run_ops ops)) = true /\
   exists h p, toolset (self (run_ops ops)) = Some h /\
               _connection_params (self (run_ops ops)) = Some p /\
               connection_params h = Some p /\
               command p = lit "npx").
Proof.
  destruct (reachable_well_formed ops)
    as [[Hn | (Hc & _ & _ & h & p & Ht & Hp & Hh & Hcmd & _)] _];
    [now left | right].
  unfold is_connected, toolset. rewrite Hc, Ht. split; [reflexivity|].
  exists h, p. now split_and!.
Qed.

(** X3: no sequence of [connect] and [disconnect] ever signals a process:
    [_process] is never assigned, so [_cleanup] finds none to terminate; and
    every toolset built is still counted by the object counter. *)
Theorem manager_never_signals_a_process (ops : list Op) :
  _process (self (run_ops ops)) = None /\
  List.filter is_process_signal (effects (run_ops ops)) = [] /\
  toolsets_built (run_ops ops) = next_id (run_ops ops).
Proof.
  pose proof (reachable_well_formed ops) as Hwf.
  split; [now apply well_formed_process|]. now destruct Hwf as [_ [? ?]].
Qed.

(** X4: when a required secret is unset or set to the empty string, an
    attempt ends in [None] with the attributes reset; it builds neither
    parameters nor toolset, and the only effects are the signals [_cleanup]
    sends to a process, none when there is no process. *)
Theorem connect_without_secret_builds_nothing (w : World) (s : Sys) :
  reuse_guard (self s) = false ->
  latch_guard (self s) = false ->
  configured w (lit "BRIGHTDATA_API_TOKEN")
  && configured w (lit "BROWSER_AUTH") = false ->
  exists fx,
    connect w s
    = (Ret None, {| self := new_manager; effects := effects s ++ fx;
                    next_id := next_id s |})
    /\ forallb is_process_signal fx = true
    /\ (_process (self s) = None -> fx = []).
Proof.
  intros Hr Hl Hc. rewrite connect_unfold, Hr, Hl. unfold try_except.
  destruct (connect_try_missing_secret w
              (set_self (set_connection_attempted true) s) Hc)
    as (msg & -> & Hm).
  rewrite connect_except_spec. cbn [exn_str]. rewrite Hm. cbn [andb].
  destruct (cleanup_signals_only w (set_self (set_connection_attempted true) s))
    as (fx & -> & Hf & Hp).
  exists fx. cbn [snd]. split_and!; [reflexivity | exact Hf | exact Hp].
Qed.

Lemma connect_without_secret_builds_nothing_witness :
  exists fx,
    connect world_empty_token sys_cached
    = (Ret None, {| self := new_manager; effects := effects sys_cached ++ fx;
                    next_id := next_id sys_cached |})
    /\ forallb is_process_signal fx = true
    /\ (_process (self sys_cached) = None -> fx = []).
Proof.
  apply (connect_without_secret_builds_nothing world_empty_token sys_cached);
    vm_compute; reflexivity.
Defined.

(** X5: on a fresh manager, with both secrets set and not empty and both
    constructors succeeding, [connect] returns a new handle whose identity is
    the next free one and whose parameters are [npx -y @brightdata/mcp] with
    the environment of [_create_mcp_environment]; it builds the parameters
    and the toolset once each and leaves the manager connected. *)
Theorem connect_fresh_succeeds (w : World) (s : Sys) :
  self s = new_manager ->
  configured w (lit "BRIGHTDATA_API_TOKEN") = true ->
  configured w (lit "BROWSER_AUTH") = true ->
  raises w Call_StdioServerParameters = None ->
  raises w Call_MCPToolset = None ->
  connect w s
  = (Ret (Some {| toolset_id := next_id s;
                  connection_params :=
                    Some {| command := lit "npx";
                            args := [lit "-y"; lit "@brightdata/mcp"];
                            env := _create_mcp_environment w |} |}),
     connected_sys w s) /\
  is_connected (self (connected_sys w s)) = true /\
  effects (connected_sys w s)
  = effects s ++ [Built_params; Built_toolset (next_id s)].
Proof.
  intros Hn H1 H2 H3 H4.
  rewrite (connect_fresh_eq w s Hn), H1, H2, H3, H4.
  split_and!; reflexivity.
Qed.

Lemma connect_fresh_succeeds_witness :
  connect world_ok new_sys
  = (Ret (Some {| toolset_id := next_id new_sys;
                  connection_params :=
                    Some {| command := lit "npx";
                            args := [lit "-y"; lit "@brightdata/mcp"];
                            env := _create_mcp_environment world_ok |} |}),
     connected_sys world_ok new_sys) /\
  is_connected (self (connected_sys world_ok new_sys)) = true /\
  effects (connected_sys world_ok new_sys)
  = effects new_sys ++ [Built_params; Built_toolset (next_id new_sys)].
Proof.
  apply (connect_fresh_succeeds world_ok new_sys); vm_compute; reflexivity.
Defined.

Lemma connect_many_cons_snd (w : World) (ws : list World) (s : Sys) :
  snd (connect_many (w :: ws) s) = snd (connect_many ws (snd (connect w s))).
Proof.
  cbn [connect_many]. destruct (connect w s) as [r s']. cbn [snd].
  now destruct (connect_many ws s').
Qed.

(** Between two [disconnect]s at most one toolset is built. *)
Lemma connect_many_builds_at_most_one (ws : list World) (s : Sys) :
  well_formed s ->
  (toolsets_built (snd (connect_many ws s)) <= toolsets_built s + 1)%nat /\
  (_is_connected (self s) = true ->
   toolsets_built (snd (connect_many ws s)) = toolsets_built s).
Proof.
  revert s. induction ws as [|w ws IH]; intros s Hwf.
  { cbn. split; [apply Nat.le_add_r | reflexivity]. }
  pose proof Hwf as [[Hn | (Hc & _ & _ & h & p & Ht & _)] [Hs Hb]].
  - split; [| rewrite Hn; discriminate].
    rewrite connect_many_cons_snd.
    pose proof (connect_well_formed w s Hwf) as Hwf'.
    rewrite (connect_fresh_eq w s Hn) in *.
    destruct (configured w (lit "BRIGHTDATA_API_TOKEN")
              && configured w (lit "BROWSER_AUTH"));
      [| apply (IH s Hwf)].
    destruct (raises w Call_StdioServerParameters); [apply (IH s Hwf)|].
    destruct (raises w Call_MCPToolset); cbn [snd] in *.
    + destruct (IH _ Hwf') as [IH1 _].
      rewrite (toolsets_built_app s new_manager [Built_params] (next_id s))
        in IH1.
      cbn in IH1. rewrite Nat.add_0_r in IH1. exact IH1.
    + destruct (IH _ Hwf') as [_ IH2]. rewrite IH2 by reflexivity.
      unfold connected_sys. rewrite toolsets_built_app. cbn. reflexivity.
  - rewrite (connect_many_reuse (w :: ws) s h Hc Ht). cbn [snd].
    split; [apply Nat.le_add_r | reflexivity].
Qed.

(** X6: however many times [connect] is called between two [disconnect]s,
    and whatever fails in each attempt, at most one toolset is built. *)
Theorem at_most_one_toolset_between_disconnects
  (ops : list Op) (wd : World) (ws : list World) :
  (toolsets_built
     (snd (connect_many ws (snd (disconnect wd (run_ops ops)))))
   <= toolsets_built (run_ops ops) + 1)%nat.
Proof.
  pose proof (reachable_well_formed ops) as Hwf.
  pose proof (disconnect_well_formed wd _ Hwf) as Hwf'.
  destruct (connect_many_builds_at_most_one ws _ Hwf') as [H _].
  rewrite (disconnect_fresh wd _ (well_formed_process _ Hwf)) in *.
  exact H.
Qed.

(** X7: a handle returned after a [disconnect] is a new object: its identity
    differs from that of the handle returned before. *)
Theorem reconnect_returns_new_handle
  (ops : list Op) (w1 wd w2 : World) (s1 s2 : Sys) (h1 h2 : MCPToolset) :
  connect w1 (run_ops ops) = (Ret (Some h1), s1) ->
  connect w2 (snd (disconnect wd s1)) = (Ret (Some h2), s2) ->
  toolset_id h2 <> toolset_id h1 /\ h2 <> h1.
Proof.
  intros E1 E2.
  pose proof (connect_well_formed w1 _ (reachable_well_formed ops)) as Hwf1.
  rewrite E1 in Hwf1. cbn [snd] in Hwf1.
  destruct (connect_result w1 (run_ops ops))
    as [(h & s' & E & Hc & Ht) | [(E & _) | (s' & E & _)]];
    rewrite E in E1; try discriminate.
  injection E1 as -> ->.
  pose proof Hwf1 as [[Hn | (_ & _ & _ & h & p & Ht' & _ & _ & _ & Hlt)] _].
  { rewrite Hn in Hc. discriminate. }
  rewrite Ht in Ht'. injection Ht' as <-.
  rewrite (disconnect_fresh wd s1 (well_formed_process s1 Hwf1)) in E2.
  cbn [snd] in E2. rewrite connect_fresh_eq in E2 by reflexivity.
  destruct (configured w2 (lit "BRIGHTDATA_API_TOKEN")
            && configured w2 (lit "BROWSER_AUTH")); [|discriminate].
  destruct (raises w2 Call_StdioServerParameters); [discriminate|].
  destruct (raises w2 Call_MCPToolset); [discriminate|].
  injection E2 as <- _. cbn [toolset_id next_id] in *.
  assert (D : next_id s1 <> toolset_id h1).
  { intros F. rewrite F in Hlt. exact (Nat.lt_irrefl _ Hlt). }
  split; [exact D|]. intros F. apply D. now rewrite <- F.
Qed.

Lemma reconnect_returns_new_handle_witness :
  toolset_id {| toolset_id := 1;
                connection_params := Some (stdio_params world_ok) |}
  <> toolset_id {| toolset_id := 0;
                   connection_params := Some (stdio_params world_ok) |} /\
  {| toolset_id := 1; connection_params := Some (stdio_params world_ok) |}
  <> {| toolset_id := 0; connection_params := Some (stdio_params world_ok) |}.
Proof.
  apply (reconnect_returns_new_handle [] world_ok world_empty world_ok
           (connected_sys world_ok new_sys)
           (snd (connect world_ok
                   (snd (disconnect world_empty
                           (connected_sys world_ok new_sys))))));
    vm_compute; reflexivity.
Defined.

(** ** Tools, agent and shared services *)

(** [get_mcp_tools] as one [connect] on the manager. *)
Lemma get_mcp_tools_result (rq : Incoming) (a : App) :
  exists tools,
    get_mcp_tools rq a
    = (Ret tools,
       set_mcp_manager (snd (connect (world rq) (_mcp_manager a))) a) /\
    (tools = [] \/
     exists h, tools = [h] /\
               toolset (self (snd (connect (world rq) (_mcp_manager a))))
               = Some h).
Proof.
  unfold get_mcp_tools, on_manager. unfold_m.
  destruct (connect_result (world rq) (_mcp_manager a))
    as [(h & s' & E & Hc & Ht) | [(E & _) | (s' & E & _)]]; rewrite E; cbn.
  - exists [h]. split; [reflexivity|]. right. exists h. split; [reflexivity|].
    unfold toolset. now rewrite Hc.
  - exists []. split; [reflexivity | now left].
  - exists []. split; [reflexivity | now left].
Qed.

(** X8: [get_mcp_tools] never raises; it runs one [connect] on the singleton
    manager and returns the empty list or the one handle the manager is then
    connected to. *)
Theorem get_mcp_tools_never_raises (rq : Incoming) (a : App) :
  exists tools,
    get_mcp_tools rq a
    = (Ret tools,
       set_mcp_manager (snd (connect (world rq) (_mcp_manager a))) a) /\
    (tools = [] \/
     exists h, tools = [h] /\
               toolset (self (snd (connect (world rq) (_mcp_manager a))))
               = Some h).
Proof. apply get_mcp_tools_result. Qed.

Lemma get_agent_async_cached (rq : Incoming) (a : App) (ag : Agent) :
  _agent_instance a = Some ag -> get_agent_async rq a = (Ret ag, a).
Proof.
  intros H. unfold get_agent_async. unfold bind at 1. unfold get at 1.
  cbv beta iota. now rewrite H.
Qed.

Lemma get_agent_async_sets (rq : Incoming) (a a' : App) (ag : Agent) :
  get_agent_async rq a = (Ret ag, a') -> _agent_instance a' = Some ag.
Proof.
  destruct (_agent_instance a) as [ag0|] eqn:E.
  { rewrite (get_agent_async_cached rq a ag0 E). now intros [= <- <-]. }
  unfold get_agent_async. unfold bind at 1. unfold get at 1. cbv beta iota.
  rewrite E. unfold try_except. unfold bind at 1.
  destruct (get_mcp_tools_result rq a) as (tools & -> & _).
  unfold call, bind, raise, ret, modify.
  destruct (raises (world rq) Call_Agent); cbn.
  - destruct (raises (world rq) Call_Agent_fallback); cbn;
      [discriminate | now intros [= <- <-]].
  - now intros [= <- <-].
Qed.

Lemma get_shared_session_service_keeps (rq : Incoming) (a : App) :
  same_agent_and_manager a (snd (get_shared_session_service rq a)) /\
  _runner_instance (snd (get_shared_session_service rq a))
  = _runner_instance a.
Proof.
  unfold get_shared_session_service, same_agent_and_manager. unfold_m.
  destruct (_session_service a); cbn; [easy|].
  destruct (raises (world rq) Call_InMemorySessionService); cbn; easy.
Qed.

Lemma get_shared_session_service_sets (rq : Incoming) (a a' : App)
  (sv : InMemorySessionService) :
  get_shared_session_service rq a = (Ret sv, a') ->
  _session_service a' = Some sv.
Proof.
  unfold get_shared_session_service. unfold_m.
  destruct (_session_service a) as [sv0|] eqn:E; cbn.
  - intros H. inversion H; subst. now destruct sv0, sv.
  - destruct (raises (world rq) Call_InMemorySessionService); cbn;
      [discriminate|].
    intros H. inversion H; subst. now destruct sv.
Qed.

Lemma get_shared_runner_cached (rq : Incoming) (a : App) (r : Runner) :
  _runner_instance a = Some r -> get_shared_runner rq a = (Ret r, a).
Proof.
  intros H. unfold get_shared_runner. unfold bind at 1. unfold get at 1.
  cbv beta iota. now rewrite H.
Qed.

Lemma get_shared_runner_sets (rq : Incoming) (a a' : App) (r : Runner) :
  get_shared_runner rq a = (Ret r, a') -> _runner_instance a' = Some r.
Proof.
  destruct (_runner_instance a) as [r0|] eqn:E.
  { rewrite (get_shared_runner_cached rq a r0 E). now intros [= <- <-]. }
  unfold get_shared_runner. unfold bind at 1. unfold get at 1. cbv beta iota.
  rewrite E. unfold bind at 1.
  destruct (get_agent_async rq a) as [[ag|e] a1]; [|discriminate].
  unfold bind at 1.
  destruct (get_shared_session_service rq a1) as [[sv|e] a2]; [|discriminate].
  unfold call, bind, raise, ret, modify.
  destruct (raises (world rq) Call_Runner); [discriminate|].
  now intros [= <- <-].
Qed.

(** X9: the runner is built at most once: after [get_shared_runner] has
    returned a runner, every later call returns that runner and changes
    nothing, whatever the constructors would do by then. *)
Theorem shared_runner_is_reused
  (rq rq' : Incoming) (a a' : App) (r : Runner) :
  get_shared_runner rq a = (Ret r, a') ->
  get_shared_runner rq' a' = (Ret r, a').
Proof.
  intros H. apply get_shared_runner_cached.
  exact (get_shared_runner_sets rq a a' r H).
Qed.

Lemma shared_runner_is_reused_witness :
  get_shared_runner incoming_agent_fails
    (snd (get_shared_runner price_stream new_app))
  = (Ret {| runner_app_name := lit "adk_mcp_fastapi";
            agent := {| name := lit "brightdata_mcp_professional_agent";
                        tools := [{| toolset_id := 0;
                                     connection_params :=
                                       Some (stdio_params world_ok) |}] |} |},
     snd (get_shared_runner price_stream new_app)).
Proof.
  apply (shared_runner_is_reused price_stream incoming_agent_fails new_app).
  vm_compute. reflexivity.
Defined.

(** X10: the agent is resolved at most once: after [get_agent_async] has
    returned an agent, every later call returns that agent, with the tools
    it got at first, and changes nothing; no further [connect] is made. *)
Theorem agent_is_resolved_once
  (rq rq' : Incoming) (a a' : App) (ag : Agent) :
  get_agent_async rq a = (Ret ag, a') ->
  get_agent_async rq' a' = (Ret ag, a').
Proof.
  intros H. apply get_agent_async_cached.
  exact (get_agent_async_sets rq a a' ag H).
Qed.

Lemma agent_is_resolved_once_witness :
  get_agent_async price_stream (snd (get_agent_async incoming_agent_fails new_app))
  = (Ret {| name := lit "basic_assistant"; tools := [] |},
     snd (get_agent_async incoming_agent_fails new_app)).
Proof.
  apply (agent_is_resolved_once incoming_agent_fails price_stream new_app).
  vm_compute. reflexivity.
Defined.

(** X11: when the constructor of the main agent raises and the fallback one
    does not, [get_agent_async] returns and caches the agent
    [basic_assistant] with no tools; the [connect] made before stays, so the
    manager can be connected while the agent has no tool. *)
Theorem agent_falls_back_without_tools (rq : Incoming) (a : App) (e : Exn) :
  _agent_instance a = None ->
  raises (world rq) Call_Agent = Some e ->
  raises (world rq) Call_Agent_fallback = None ->
  get_agent_async rq a
  = (Ret {| name := lit "basic_assistant"; tools := [] |},
     set_agent_instance (Some {| name := lit "basic_assistant"; tools := [] |})
       (set_mcp_manager (snd (connect (world rq) (_mcp_manager a))) a)).
Proof.
  intros Ha H1 H2.
  unfold get_agent_async. unfold bind at 1. unfold get at 1. cbv beta iota.
  rewrite Ha. unfold try_except. unfold bind at 1.
  destruct (get_mcp_tools_result rq a) as (tools & -> & _).
  unfold call, bind, raise, ret, modify. rewrite H1, H2. reflexivity.
Qed.

Lemma agent_falls_back_without_tools_witness :
  get_agent_async incoming_agent_fails new_app
  = (Ret {| name := lit "basic_assistant"; tools := [] |},
     set_agent_instance (Some {| name := lit "basic_assistant"; tools := [] |})
       (set_mcp_manager
          (snd (connect (world incoming_agent_fails) (_mcp_manager new_app)))
          new_app)).
Proof.
  apply (agent_falls_back_without_tools incoming_agent_fails new_app
           (ValueError (lit "tools"))); reflexivity.
Defined.

Example fallback_agent_with_connected_manager :
  is_connected
    (self (_mcp_manager (snd (get_agent_async incoming_agent_fails new_app))))
  = true /\
  root_tools_available
    (root (snd (get_agent_async incoming_agent_fails new_app))) = 1.
Proof. split; vm_compute; reflexivity. Qed.

(** ** Requests *)

Lemma same_agent_and_manager_refl a : same_agent_and_manager a a.
Proof. now split. Qed.

Lemma same_agent_and_manager_trans a b c :
  same_agent_and_manager a b -> same_agent_and_manager b c ->
  same_agent_and_manager a c.
Proof. unfold same_agent_and_manager. intros [] []. split; congruence. Qed.

Lemma get_shared_runner_keeps (rq : Incoming) (a : App) (ag : Agent) :
  _agent_instance a = Some ag ->
  same_agent_and_manager a (snd (get_shared_runner rq a)).
Proof.
  intros Ha.
  unfold get_shared_runner. unfold bind at 1. unfold get at 1. cbv beta iota.
  destruct (_runner_instance a); [apply same_agent_and_manager_refl|].
  unfold bind at 1. rewrite (get_agent_async_cached rq a ag Ha).
  unfold bind at 1.
  destruct (get_shared_session_service_keeps rq a) as [H1 _].
  destruct (get_shared_session_service rq a) as [[sv|e] a2]; cbn [snd] in *;
    [|exact H1].
  unfold call, bind, raise, ret, modify.
  destruct (raises (world rq) Call_Runner); cbn; exact H1.
Qed.

Lemma open_for_keeps (rq : Incoming) (uid : pystr) (a : App) (ag : Agent) :
  _agent_instance a = Some ag ->
  same_agent_and_manager a (snd (open_for rq uid a)).
Proof.
  intros Ha. unfold open_for. unfold bind at 1.
  destruct (get_shared_session_service_keeps rq a) as [H1 _].
  destruct (get_shared_session_service rq a) as [[sv|e] a1]; cbn [snd] in *;
    [|exact H1].
  assert (Ha1 : _agent_instance a1 = Some ag) by (destruct H1; congruence).
  unfold bind at 1.
  pose proof (get_shared_runner_keeps rq a1 ag Ha1) as H2.
  destruct (get_shared_runner rq a1) as [[r|e] a2]; cbn [snd] in *;
    [| now apply (same_agent_and_manager_trans a a1 a2)].
  unfold create_session, call, bind, raise, ret, modify.
  destruct (raises (world rq) Call_create_session); cbn;
    now apply (same_agent_and_manager_trans a a1 a2).
Qed.

Lemma open_session_open_for (rq : Incoming) (m : ChatMessage.t) :
  open_session rq m
  = open_for rq (lit "user_" ++ format_optional (ChatMessage.session_id m)).
Proof. reflexivity. Qed.

(** The state [chat] leaves is the one [open_session] left, with the run
    recorded when a session was opened; for a blank message it is the state
    it found. *)
Lemma chat_state (rq : Incoming) (m : ChatMessage.t) (a : App) :
  snd (chat rq m a) = a \/
  snd (chat rq m a) = snd (open_session rq m a) \/
  exists sid, snd (chat rq m a) = add_run sid (snd (open_session rq m a)).
Proof.
  destruct (nonempty (strip (ChatMessage.message m))) eqn:E;
    [| left; now rewrite chat_blank].
  destruct (open_session rq m a) as [[session|e] a1] eqn:Ho.
  - right; right. exists (Session.id session).
    rewrite (chat_open_ok rq m a a1 session E Ho).
    now destruct (ChatMessage.session_id m).
  - right; left. now rewrite (chat_open_fails rq m a a1 e E Ho).
Qed.

(** [quick_compare], one path at a time. *)
Lemma quick_compare_unfold (rq : Incoming) (p l : pystr) (a : App) :
  quick_compare rq p l a
  = match open_for rq (lit "quick_user") a with
    | (Ret session, a1) =>
        match quick_with_timeout rq [] with
        | (Ret _, t) =>
            (Ret (Quick_response
                    (if nonempty (strip t) then strip t else quick_fallback)
                    quick_timeout_seconds (lit "success")),
             add_run (Session.id session) a1)
        | (Raise e, _) =>
            (Ret (Quick_error (exn_str e) (lit "error")),
             add_run (Session.id session) a1)
        end
    | (Raise e, a1) => (Ret (Quick_error (exn_str e) (lit "error")), a1)
    end.
Proof.
  unfold quick_compare, open_for, try_except, with_response_text. cbv zeta.
  unfold bind, modify, ret.
  destruct (get_shared_session_service rq a) as [[sv|e] a1]; [|reflexivity].
  destruct (get_shared_runner rq a1) as [[r|e] a2]; [|reflexivity].
  destruct (create_session rq (lit "adk_mcp_fastapi") (lit "quick_user") a2)
    as [[session|e] a3]; [|reflexivity].
  now destruct (quick_with_timeout rq []) as [[[]|e] t].
Qed.

Lemma lifespan_shutdown_eq (rq : Incoming) (a : App) :
  lifespan_shutdown rq a
  = (Ret tt,
     set_mcp_manager (snd (disconnect (world rq) (_mcp_manager a))) a).
Proof.
  unfold lifespan_shutdown, cleanup_mcp, on_manager, try_except, disconnect.
  destruct (cleanup_resets (world rq) (_mcp_manager a)) as [fx ->].
  reflexivity.
Qed.

Lemma lifespan_startup_cached (rq : Incoming) (a : App) (ag : Agent) :
  _agent_instance a = Some ag -> lifespan_startup rq a = (Ret tt, a).
Proof.
  intros Ha. unfold lifespan_startup, try_except, bind.
  now rewrite (get_agent_async_cached rq a ag Ha).
Qed.

Lemma serve_keeps_agent (a : App) (r : Request) (ag : Agent) :
  _agent_instance a = Some ag ->
  _agent_instance (serve a r) = Some ag /\
  (is_shutdown r = false -> _mcp_manager (serve a r) = _mcp_manager a).
Proof.
  intros Ha. destruct r as [rq | rq m | rq p l | rq]; cbn [serve is_shutdown].
  - rewrite (lifespan_startup_cached rq a ag Ha). now split.
  - pose proof (open_for_keeps rq
                  (lit "user_" ++ format_optional (ChatMessage.session_id m))
                  a ag Ha) as [K1 K2].
    rewrite <- open_session_open_for in K1, K2.
    destruct (chat_state rq m a) as [-> | [-> | [sid ->]]]; cbn;
      split; intros; congruence.
  - pose proof (open_for_keeps rq (lit "quick_user") a ag Ha) as [K1 K2].
    rewrite quick_compare_unfold.
    destruct (open_for rq (lit "quick_user") a) as [[session|e] a1];
      cbn [snd] in *.
    + destruct (quick_with_timeout rq []) as [[[]|e] t]; cbn;
        split; intros; congruence.
    + cbn. split; intros; congruence.
  - rewrite lifespan_shutdown_eq. cbn. split; [exact Ha | discriminate].
Qed.

(** X12: once an agent is cached, no request replaces it: start-up, chat,
    quick compare and shutdown all leave [_agent_instance] as it is, so the
    agent keeps the tools it was built with; and apart from shutdown none of
    them touches the connection manager again. *)
Theorem agent_fixed_once_resolved (rs : list Request) (a : App) (ag : Agent) :
  _agent_instance a = Some ag ->
  _agent_instance (fold_left serve rs a) = Some ag /\
  (forallb (fun r => negb (is_shutdown r)) rs = true ->
   _mcp_manager (fold_left serve rs a) = _mcp_manager a).
Proof.
  revert a. induction rs as [|r rs IH]; intros a Ha; [now split|].
  cbn [fold_left forallb].
  destruct (serve_keeps_agent a r ag Ha) as [H1 H2].
  destruct (IH (serve a r) H1) as [I1 I2]. split; [exact I1|].
  intros H. apply andb_true_iff in H as [Hr Hrs].
  rewrite (I2 Hrs). apply H2. now destruct (is_shutdown r).
Qed.

Lemma agent_fixed_once_resolved_witness :
  _agent_instance
    (fold_left serve
       [Chat price_stream hi_default;
        QuickCompare price_stream (lit "booking vs airbnb") (lit "New York")]
       app_basic_agent)
  = Some basic_agent /\
  (forallb (fun r => negb (is_shutdown r))
     [Chat price_stream hi_default;
      QuickCompare price_stream (lit "booking vs airbnb") (lit "New York")]
   = true ->
   _mcp_manager
     (fold_left serve
        [Chat price_stream hi_default;
         QuickCompare price_stream (lit "booking vs airbnb") (lit "New York")]
        app_basic_agent)
   = _mcp_manager app_basic_agent).
Proof.
  apply (agent_fixed_once_resolved
           [Chat price_stream hi_default;
            QuickCompare price_stream (lit "booking vs airbnb")
              (lit "New York")]
           app_basic_agent basic_agent).
  vm_compute. reflexivity.
Defined.

(** X13: the start-up part of [lifespan] never raises; afterwards an agent
    is cached unless there was none and both [Agent] constructors raised. *)
Theorem lifespan_startup_never_raises (rq : Incoming) (a : App) :
  exists a',
    lifespan_startup rq a = (Ret tt, a') /\
    (_agent_instance a' = None ->
     _agent_instance a = None /\
     raises (world rq) Call_Agent <> None /\
     raises (world rq) Call_Agent_fallback <> None).
Proof.
  unfold lifespan_startup, try_except. unfold bind at 1.
  destruct (get_agent_async rq a) as [[ag|e] a1] eqn:E.
  - exists a1. split; [reflexivity|]. intros Hn.
    rewrite (get_agent_async_sets rq a a1 ag E) in Hn. discriminate.
  - exists a1. split; [reflexivity|]. intros _.
    destruct (_agent_instance a) as [ag|] eqn:Ha.
    { rewrite (get_agent_async_cached rq a ag Ha) in E. discriminate. }
    split; [reflexivity|].
    revert E. unfold get_agent_async. unfold bind at 1. unfold get at 1.
    cbv beta iota. rewrite Ha. unfold try_except. unfold bind at 1.
    destruct (get_mcp_tools_result rq a) as (tools & -> & _).
    unfold call, bind, raise, ret, modify.
    destruct (raises (world rq) Call_Agent); cbn; [|discriminate].
    destruct (raises (world rq) Call_Agent_fallback); cbn; [|discriminate].
    intros _. split; discriminate.
Qed.

(** X14: the shutdown part of [lifespan] never raises and leaves the manager
    with the attributes of [__init__], so the diagnostics report no
    connection; the cached agent, runner and sessions stay as they were. *)
Theorem lifespan_shutdown_disconnects (rq rq' : Incoming) (a : App) :
  exists s',
    lifespan_shutdown rq a = (Ret tt, set_mcp_manager s' a) /\
    self s' = new_manager /\
    mcp_connected (health_check rq' (set_mcp_manager s' a)) = false /\
    health_tools_count (health_check rq' (set_mcp_manager s' a)) = 0 /\
    root_tools_available (root (set_mcp_manager s' a)) = 0 /\
    mcp_initialized (mcp_status (set_mcp_manager s' a)) = false /\
    adk_initialized (health_check rq' (set_mcp_manager s' a))
    = truthy (_agent_instance a).
Proof.
  rewrite lifespan_shutdown_eq. unfold disconnect.
  destruct (cleanup_resets (world rq) (_mcp_manager a)) as [fx ->].
  eexists. split; [reflexivity|]. cbn [snd self].
  unfold health_check, mcp_status, root, tools_count, is_connected. cbn.
  now split_and!.
Qed.


(** ** Quick compare *)

Lemma quick_note_kept : rstrip quick_note = quick_note.
Proof. vm_compute. reflexivity. Qed.

(** Stripping a blank buffer followed by [b] strips [b]. *)
Lemma strip_app_blank (a b : pystr) :
  strip a = [] -> strip (a ++ b) = strip b.
Proof.
  intros H. apply strip_blank in H. apply lstrip_blank in H.
  unfold strip. now rewrite lstrip_app_blank.
Qed.

Lemma nonempty_or (x d : pystr) :
  x <> [] -> (if nonempty x then x else d) = x.
Proof. now destruct x. Qed.


(** X17: when the deadline cuts a quick comparison, the note is appended
    whatever the buffer holds: the response is the buffer without its leading
    whitespace followed by the note, or the note alone, stripped, when the
    buffer is blank; it is never the fallback text. *)
Theorem quick_compare_timeout_appends_note
  (rq : Incoming) (p l : pystr) (a a' : App) (session : Session.t)
  (buf : pystr) :
  open_for rq (lit "quick_user") a = (Ret session, a') ->
  quick_consume rq (events rq) [] = (Ret tt, buf) ->
  ending rq = Deadline_expires ->
  quick_compare rq p l a
  = (Ret (Quick_response
            (if nonempty (strip buf) then lstrip buf ++ quick_note
             else strip quick_note)
            30 (lit "success")),
     add_run (Session.id session) a') /\
  (if nonempty (strip buf) then lstrip buf ++ quick_note
   else strip quick_note) <> quick_fallback.
Proof.
  intros Ho Hc He.
  assert (Hq : quick_with_timeout rq [] = (Ret tt, buf ++ quick_note)).
  { unfold quick_with_timeout, try_except_timeout, wait_for_quick, bind.
    now rewrite Hc, He. }
  assert (Hs : strip (buf ++ quick_note)
               = if nonempty (strip buf) then lstrip buf ++ quick_note
                 else strip quick_note).
  { destruct (nonempty (strip buf)) eqn:E.
    - apply nonempty_true in E.
      apply (strip_app_keep buf quick_note E quick_note_kept).
      vm_compute. discriminate.
    - apply nonempty_false in E. now apply strip_app_blank. }
  assert (Hn : (if nonempty (strip buf) then lstrip buf ++ quick_note
                else strip quick_note) <> []).
  { destruct (nonempty (strip buf)).
    - intros F. apply app_eq_nil in F as [_ F]. vm_compute in F. discriminate.
    - vm_compute. discriminate. }
  split.
  - rewrite quick_compare_unfold, Ho, Hq.
    rewrite (nonempty_or (strip (buf ++ quick_note)) quick_fallback)
      by (rewrite Hs; exact Hn).
    now rewrite Hs.
  - destruct (nonempty (strip buf)).
    + intros F. apply (f_equal (@rev N)) in F. rewrite rev_app_distr in F.
      vm_compute in F. discriminate.
    + vm_compute. discriminate.
Qed.

Lemma quick_compare_timeout_appends_note_witness :
  quick_compare hello_world_timeout (lit "booking vs airbnb") (lit "New York")
    new_app
  = (Ret (Quick_response
            (if nonempty (strip (lit "Hello " ++ [10] ++ lit "World" ++ [10]))
             then lstrip (lit "Hello " ++ [10] ++ lit "World" ++ [10])
                  ++ quick_note
             else strip quick_note)
            30 (lit "success")),
     add_run (Session.id quick_session)
       (snd (open_for hello_world_timeout (lit "quick_user") new_app))) /\
  (if nonempty (strip (lit "Hello " ++ [10] ++ lit "World" ++ [10]))
   then lstrip (lit "Hello " ++ [10] ++ lit "World" ++ [10]) ++ quick_note
   else strip quick_note) <> quick_fallback.
Proof.
  apply (quick_compare_timeout_appends_note hello_world_timeout
           (lit "booking vs airbnb") (lit "New York") new_app _ quick_session
           (lit "Hello " ++ [10] ++ lit "World" ++ [10]));
    vm_compute; reflexivity.
Defined.



Lemma quick_consume_ignores (rq : Incoming) (evs : list Val) (buf : pystr) :
  forallb (fun ev => negb (has_content_parts ev)) evs = true ->
  quick_consume rq evs buf = (Ret tt, buf).
Proof.
  induction evs as [|ev evs IH]; intros H; [reflexivity|].
  cbn [forallb] in H. apply andb_true_iff in H as [H1 H2].
  cbn [quick_consume]. unfold bind, quick_on_event.
  unfold has_content_parts in H1. apply negb_true_iff in H1. rewrite H1.
  now apply IH.
Qed.

(** X19: [quick_compare] reads text only from the parts of [event.content]:
    when no event of a stream that ends by itself has that shape, the
    response is the fallback text, whatever text the events carry in the
    other shapes that [chat] reads. *)
Theorem quick_compare_ignores_other_shapes
  (rq : Incoming) (p l : pystr) (a a' : App) (session : Session.t) :
  open_for rq (lit "quick_user") a = (Ret session, a') ->
  forallb (fun ev => negb (has_content_parts ev)) (events rq) = true ->
  ending rq = Stream_ends ->
  quick_compare rq p l a
  = (Ret (Quick_response quick_fallback 30 (lit "success")),
     add_run (Session.id session) a').
Proof.
  intros Ho Hev He.
  assert (Hq : quick_with_timeout rq [] = (Ret tt, [])).
  { unfold quick_with_timeout, try_except_timeout, wait_for_quick, bind.
    now rewrite (quick_consume_ignores rq _ [] Hev), He. }
  now rewrite quick_compare_unfold, Ho, Hq.
Qed.

Lemma quick_compare_ignores_other_shapes_witness :
  quick_compare flat_stream (lit "booking vs airbnb") (lit "New York") new_app
  = (Ret (Quick_response quick_fallback 30 (lit "success")),
     add_run (Session.id quick_session)
       (snd (open_for flat_stream (lit "quick_user") new_app))).
Proof.
  apply (quick_compare_ignores_other_shapes flat_stream
           (lit "booking vs airbnb") (lit "New York") new_app _ quick_session);
    vm_compute; reflexivity.
Defined.

Example chat_reads_flat_events :
  fst (chat flat_stream hi_default new_app)
  = Ret (success_response (lit "Price: $10") (lit "default")).
Proof. vm_compute. reflexivity. Qed.

(** ** Extraction of text from events *)

(** X20: an event is passed over without error when it has none of the
    attributes [content], [message], [text]; and also when it has a
    [content] that is [None], whatever its other attributes hold, because
    the test for [content] comes first. *)
Theorem on_event_ignores (rq : Incoming) (event : Val) (buf : pystr) :
  (hasattr event (lit "content") = true /\ attr event (lit "content") = VNone)
  \/ (hasattr event (lit "content") = false /\
      hasattr event (lit "message") = false /\
      hasattr event (lit "text") = false) ->
  on_event rq event buf = (Ret tt, buf).
Proof.
  intros [[H1 H2] | (H1 & H2 & H3)]; unfold on_event.
  - rewrite H1, H2. reflexivity.
  - rewrite H1, H2, H3. reflexivity.
Qed.

Lemma on_event_ignores_witness :
  on_event price_stream shadowed_event (lit "so far") = (Ret tt, lit "so far").
Proof.
  apply (on_event_ignores price_stream shadowed_event (lit "so far")).
  left. split; vm_compute; reflexivity.
Defined.

Section AppendsOnly.

Context (rq : Incoming).

Lemma appends_only_ret {A} (x : A) : appends_only (ret x).
Proof. intros buf. cbn. now rewrite app_nil_r. Qed.

Lemma appends_only_raise {A} (e : Exn) : appends_only (@raise pystr A e).
Proof. intros buf. cbn. now rewrite app_nil_r. Qed.

Lemma appends_only_append_line (s : pystr) : appends_only (append_line s).
Proof. intros buf. reflexivity. Qed.

Lemma appends_only_bind {A B} (m : M pystr A) (k : A -> M pystr B) :
  appends_only m -> (forall x, appends_only (k x)) -> appends_only (bind m k).
Proof.
  intros Hm Hk buf. unfold bind. rewrite (Hm buf).
  destruct (m []) as [[x|e] t]; cbn [fst snd].
  - rewrite (Hk x (buf ++ t)), (Hk x t). cbn [fst snd].
    now rewrite app_assoc.
  - reflexivity.
Qed.

Lemma appends_only_if {A} (c : bool) (m1 m2 : M pystr A) :
  appends_only m1 -> appends_only m2 -> appends_only (if c then m1 else m2).
Proof. now destruct c. Qed.

Lemma appends_only_for_parts (parts : Val) : appends_only (for_parts rq parts).
Proof.
  unfold for_parts. apply appends_only_bind.
  - unfold iterate. destruct parts;
      first [apply appends_only_ret | apply appends_only_raise].
  - intros items. induction items as [|part items IH]; cbn [fold_right].
    + apply appends_only_ret.
    + apply appends_only_bind; [|intros _; exact IH].
      apply appends_only_if;
        [apply appends_only_append_line | apply appends_only_ret].
Qed.

Lemma appends_only_on_event (event : Val) : appends_only (on_event rq event).
Proof.
  unfold on_event.
  repeat first
    [ apply appends_only_if
    | apply appends_only_for_parts
    | apply appends_only_append_line
    | apply appends_only_ret ].
Qed.

Lemma appends_only_consume (evs : list Val) : appends_only (consume rq evs).
Proof.
  induction evs as [|ev evs IH]; cbn [consume].
  - apply appends_only_ret.
  - apply appends_only_bind; [apply appends_only_on_event | intros _; exact IH].
Qed.

Lemma consume_app (xs ys : list Val) (buf : pystr) :
  consume rq (xs ++ ys) buf = (consume rq xs ;;; consume rq ys) buf.
Proof.
  revert buf. induction xs as [|x xs IH]; intros buf; [reflexivity|].
  cbn [app consume]. unfold bind at 1 2 3.
  destruct (on_event rq x buf) as [[[]|e] t]; [|reflexivity].
  rewrite IH. reflexivity.
Qed.

End AppendsOnly.

(** X21: the events are handled in order and each only appends to the
    buffer: consuming [xs ++ ys] is consuming [xs] and then [ys], and what a
    list of events returns and appends does not depend on the text gathered
    before it. *)
Theorem consume_appends_in_order
  (rq : Incoming) (xs ys : list Val) (buf : pystr) :
  consume rq (xs ++ ys) buf = (consume rq xs ;;; consume rq ys) buf /\
  consume rq xs buf = (fst (consume rq xs []), buf ++ snd (consume rq xs [])).
Proof.
  split; [apply consume_app | apply appends_only_consume].
Qed.

(** X22: an event whose [content.parts] is [None] makes the loop raise a
    [TypeError]; wherever it comes in the stream, and however the stream
    would have ended, the text of the response is the error message, and
    what was gathered before is lost. *)
Theorem parts_none_becomes_error_text
  (rq : Incoming) (pre post : list Val) (event : Val) (buf : pystr) :
  events rq = pre ++ event :: post ->
  consume rq pre [] = (Ret tt, buf) ->
  hasattr event (lit "content") = true ->
  hasattr (attr event (lit "content")) (lit "parts") = true ->
  attr (attr event (lit "content")) (lit "parts") = VNone ->
  final_text rq = error_prefix ++ lit "'NoneType' object is not iterable".
Proof.
  intros Hev Hpre H1 H2 H3.
  assert (Hw : wait_for_run rq []
               = (Raise (TypeError (lit "'NoneType' object is not iterable")),
                  buf)).
  { unfold wait_for_run. unfold bind at 1. rewrite Hev, consume_app.
    unfold bind at 1. rewrite Hpre. cbn [consume]. unfold bind at 1.
    unfold on_event. rewrite H1, H2, H3. reflexivity. }
  destruct (final_text_error rq _ buf Hw) as [-> _]; [discriminate|].
  vm_compute. reflexivity.
Qed.

Lemma parts_none_becomes_error_text_witness :
  final_text parts_none_stream
  = error_prefix ++ lit "'NoneType' object is not iterable".
Proof.
  apply (parts_none_becomes_error_text parts_none_stream
           [text_event (lit "partial")] [text_event (lit "more")]
           parts_none_event (lit "partial" ++ [10]));
    vm_compute; reflexivity.
Defined.

Lemma on_text_event (rq : Incoming) (s buf : pystr) :
  on_event rq (text_event s) buf
  = (Ret tt, if nonempty s then buf ++ s ++ [10] else buf) /\
  on_event rq (message_event s) buf
  = (Ret tt, if nonempty s then buf ++ s ++ [10] else buf) /\
  on_event rq (flat_event s) buf
  = (Ret tt, if nonempty s then buf ++ s ++ [10] else buf).
Proof. destruct s; split_and!; reflexivity. Qed.

Lemma consume_text_events_eq (rq : Incoming) (pieces : list pystr)
  (buf : pystr) :
  consume rq (List.map text_event pieces) buf
  = (Ret tt, buf ++ lines_of pieces) /\
  consume rq (List.map message_event pieces) buf
  = (Ret tt, buf ++ lines_of pieces) /\
  consume rq (List.map flat_event pieces) buf
  = (Ret tt, buf ++ lines_of pieces).
Proof.
  revert buf. induction pieces as [|p pieces IH]; intros buf.
  { cbn. rewrite app_nil_r. now split_and!. }
  destruct (on_text_event rq p buf) as (E1 & E2 & E3).
  cbn [List.map consume]. unfold bind. rewrite E1, E2, E3.
  unfold lines_of in *. cbn [List.filter].
  destruct (nonempty p); cbn [List.map concat].
  - destruct (IH (buf ++ p ++ [10])) as (-> & -> & ->).
    rewrite <- !app_assoc. now split_and!.
  - apply IH.
Qed.

(** X23: a stream of events that carry one text each, in any of the three
    shapes, leaves in the buffer every text that is not empty, in order,
    each followed by a newline; empty texts leave nothing. *)
Theorem consume_text_events (rq : Incoming) (pieces : list pystr) (buf : pystr) :
  consume rq (List.map text_event pieces) buf
  = (Ret tt, buf ++ lines_of pieces) /\
  consume rq (List.map message_event pieces) buf
  = (Ret tt, buf ++ lines_of pieces) /\
  consume rq (List.map flat_event pieces) buf
  = (Ret tt, buf ++ lines_of pieces).
Proof. apply consume_text_events_eq. Qed.

(** X24: when the stream is made of such text events and ends by itself, the
    text of the response is the lines joined and stripped, or the fallback
    message when nothing visible came. *)
Theorem final_text_of_text_events (rq : Incoming) (pieces : list pystr) :
  events rq = List.map text_event pieces ->
  ending rq = Stream_ends ->
  final_text rq
  = if nonempty (strip (lines_of pieces)) then strip (lines_of pieces)
    else fallback_message.
Proof.
  intros Hev He. apply final_text_complete.
  apply wait_for_run_ends; [|exact He].
  rewrite Hev. now destruct (consume_text_events_eq rq pieces []) as [-> _].
Qed.

Lemma final_text_of_text_events_witness :
  final_text price_stream
  = if nonempty (strip (lines_of [lit "Price: $10"]))
    then strip (lines_of [lit "Price: $10"])
    else fallback_message.
Proof.
  apply (final_text_of_text_events price_stream [lit "Price: $10"]);
    reflexivity.
Defined.

(** ** Diagnostics and settings *)

(** X25: when [health_check] reports one of the two secrets as not
    configured and the manager as not connected, a [connect] in the same
    environment returns [None]. *)
Theorem health_missing_secret_blocks_connect (rq : Incoming) (a : App) :
  brightdata_api_configured (health_check rq a)
  && browser_auth_configured (health_check rq a) = false ->
  mcp_connected (health_check rq a) = false ->
  fst (connect (world rq) (_mcp_manager a)) = Ret None.
Proof.
  cbn [health_check brightdata_api_configured browser_auth_configured
       mcp_connected]. intros Hs Hc.
  destruct (latch_guard (self (_mcp_manager a))) eqn:Hl.
  - rewrite connect_unfold. change (reuse_guard (self (_mcp_manager a)))
      with (is_connected (self (_mcp_manager a))). now rewrite Hc, Hl.
  - rewrite connect_unfold. change (reuse_guard (self (_mcp_manager a)))
      with (is_connected (self (_mcp_manager a))). rewrite Hc, Hl.
    unfold try_except.
    destruct (connect_try_missing_secret (world rq)
                (set_self (set_connection_attempted true) (_mcp_manager a)) Hs)
      as (msg & -> & Hm).
    rewrite connect_except_spec. cbn [exn_str]. rewrite Hm. reflexivity.
Qed.

Lemma health_missing_secret_blocks_connect_witness :
  fst (connect (world incoming_empty_token) (_mcp_manager new_app)) = Ret None.
Proof.
  apply (health_missing_secret_blocks_connect incoming_empty_token new_app);
    vm_compute; reflexivity.
Defined.

(** X26: when [Settings.is_configured] holds, [health_check] reports the
    three keys as configured; if moreover the manager is fresh and the two
    constructors succeed, [connect] returns a handle and the diagnostics then
    report the connection with one tool. *)
Theorem configured_settings_connect (rq : Incoming) (a : App) :
  is_configured (world rq) = true ->
  self (_mcp_manager a) = new_manager ->
  raises (world rq) Call_StdioServerParameters = None ->
  raises (world rq) Call_MCPToolset = None ->
  google_api_configured (health_check rq a) = true /\
  brightdata_api_configured (health_check rq a) = true /\
  browser_auth_configured (health_check rq a) = true /\
  exists h s',
    connect (world rq) (_mcp_manager a) = (Ret (Some h), s') /\
    mcp_connected (health_check rq (set_mcp_manager s' a)) = true /\
    mcp_status_text (health_check rq (set_mcp_manager s' a)) = lit "connected" /\
    health_tools_count (health_check rq (set_mcp_manager s' a)) = 1 /\
    root_tools_available (root (set_mcp_manager s' a)) = 1 /\
    status_tools_count (mcp_status (set_mcp_manager s' a)) = 1.
Proof.
  unfold is_configured. intros Hc Hn H1 H2.
  apply andb_true_iff in Hc as [Hc Hb]. apply andb_true_iff in Hc as [Hg Ht].
  cbn [health_check google_api_configured brightdata_api_configured
       browser_auth_configured]. unfold configured.
  split_and!; try assumption.
  eexists _, _. split.
  - rewrite (connect_fresh_eq (world rq) _ Hn). unfold configured.
    rewrite Ht, Hb, H1, H2. reflexivity.
  - now split_and!.
Qed.

Lemma configured_settings_connect_witness :
  google_api_configured (health_check incoming_configured new_app) = true /\
  brightdata_api_configured (health_check incoming_configured new_app) = true /\
  browser_auth_configured (health_check incoming_configured new_app) = true /\
  exists h s',
    connect (world incoming_configured) (_mcp_manager new_app) = (Ret (Some h), s') /\
    mcp_connected (health_check incoming_configured (set_mcp_manager s' new_app))
    = true /\
    mcp_status_text (health_check incoming_configured (set_mcp_manager s' new_app))
    = lit "connected" /\
    health_tools_count (health_check incoming_configured (set_mcp_manager s' new_app))
    = 1 /\
    root_tools_available (root (set_mcp_manager s' new_app)) = 1 /\
    status_tools_count (mcp_status (set_mcp_manager s' new_app)) = 1.
Proof.
  apply (configured_settings_connect incoming_configured new_app);
    vm_compute; reflexivity.
Defined.
